(** * VSLAM-LAB: the supervised execution of a baseline

    A shallow embedding of [Baselines/BaselineVSLAMLab.py]: the process
    supervisor [execute], its background watcher [monitor_memory] and the
    termination routine [kill_process].

    Conventions of the embedding.
    - Everything the operating system, [subprocess], [psutil] and [pynvml]
      answer is an input: the records [kill_env], [monitor_env] and
      [exec_env] hold the outcome of each call, and the Python code is a
      function of these outcomes.
    - Python exceptions are the [Raise] case of [result]; mutations made
      before an exception stay in the [world].
    - The objects shared by the two threads ([success_flag],
      [comment_queue], [memory_stats]) are cells of the [world]; a
      computation also gives the observable events it emitted, in program
      order.
    - The monitor thread runs while the caller waits for the child.  The
      two threads write one common cell, the flag, and the caller reads
      the shared objects only after the join; the model runs the body of
      the thread in one piece, either before or after the caller handles
      the outcome of its wait ([monitor_first]).
    - Calls that no environment record lists ([psutil] at the start of
      the monitor, the queue, the dict) return.
    - Python floats are exact rationals ([Q]); byte counts are [Z]. *)

From Stdlib Require Import ZArith QArith Qround Ascii.
From stdpp Require Import base option list strings pretty gmap.

Open Scope string_scope.
Open Scope Z_scope.
Open Scope list_scope.

(** ** Python values and exceptions *)

(** The exceptions the supervisor can meet.  [subprocess.TimeoutExpired] is
    not among them: it is an outcome of [wait] and [communicate], caught at
    both places it can arise. *)
Inductive exn : Type :=
| ProcessLookupError
| PermissionError
| FileNotFoundError
| OSError.

Inductive result (A : Type) : Type :=
| Ok (a : A)
| Raise (e : exn).
Arguments Ok {A} a.
Arguments Raise {A} e.

(** A statistic of the run result: a number, or a string such as ['N/A']. *)
Inductive pyval : Type :=
| PyNum (q : Q)
| PyStr (s : string).

Inductive level : Type := LvlError | LvlInfo.

Inductive signal : Type := SIGTERM | SIGKILL.

(** [pathlib.Path], as its components; [p / s] appends one. *)
Definition Path : Type := list string.
Definition path_div (p : Path) (s : string) : Path := p ++ [s].

(** ** Observable events *)

Inductive event : Type :=
| EOpen (p : Path)                 (* open(log_file_path, 'w') *)
| EClose                           (* leaving the with block *)
| EPrintLogFile (p : Path)         (* print(f"...log file: {path}") *)
| EPrintMsg (msg : string) (lvl : level)  (* print_msg(SCRIPT_LABEL, msg, lvl) *)
| EPopen (command : string)        (* subprocess.Popen(command, ...) *)
| EThreadStart                     (* memory_thread.start() *)
| ECommunicate (timeout : Z)       (* process.communicate(timeout=...) *)
| EJoin                            (* memory_thread.join() *)
| EGetpgid                         (* os.getpgid(process.pid) *)
| EKillpg (pgid : Z) (sig : signal) (* os.killpg(pgid, sig) *)
| EWait (timeout : Z)              (* process.wait(timeout=5) *)
| ENvmlInit
| ENvmlShutdown
| ESleep (interval : Z)            (* time.sleep(interval) *)
| EFlagWrite (b : bool)            (* success_flag[0] = b *)
| EFlagRead (b : bool)             (* success_flag[0] *)
| EQueuePut (msg : string)         (* comment_queue.put(msg) *)
| EQueueGet (msg : string)         (* comment_queue.get() *)
| EStatsSet (key : string) (v : pyval)   (* memory_stats[key] = v *)
| EStatsGet (key : string)         (* memory_stats.get(key, 'N/A') *)
| EExists (p : Path).              (* Path.exists() *)

(** ** The world: the objects the two threads share *)

Record world : Type := mkWorld {
  success_flag : bool;                 (* success_flag[0] *)
  comment_queue : list string;         (* queue.Queue(), oldest first *)
  memory_stats : gmap string pyval     (* the dict memory_stats *)
}.

(** The objects [execute] creates before it does anything else. *)
Definition init_world : world :=
  {| success_flag := true; comment_queue := []; memory_stats := ∅ |}.

(** ** The monad of the embedding: state, exceptions and emitted events

    A computation takes the world and gives its result, the world it leaves
    and the events it emitted, oldest first.  After an exception the world
    and the events reached so far are kept. *)

Definition M (A : Type) : Type := world → result A * world * list event.

Global Instance M_ret : MRet M := λ A a w, (Ok a, w, []).
Global Instance M_bind : MBind M := λ A B f m w,
  match m w with
  | (Ok a, w1, t1) =>
      match f a w1 with
      | (r, w2, t2) => (r, w2, t1 ++ t2)
      end
  | (Raise e, w1, t1) => (Raise e, w1, t1)
  end.

Definition emit (ev : event) : M unit := λ w, (Ok (), w, [ev]).

(** The answer of a call that the environment decides. *)
Definition answer {A} (r : result A) : M A := λ w, (r, w, []).

(** [success_flag[0] = b] *)
Definition set_flag (b : bool) : M unit := λ w,
  (Ok (), {| success_flag := b; comment_queue := comment_queue w;
             memory_stats := memory_stats w |}, [EFlagWrite b]).

(** [success_flag[0]] *)
Definition read_flag : M bool := λ w,
  (Ok (success_flag w), w, [EFlagRead (success_flag w)]).

(** [comment_queue.put(msg)] *)
Definition queue_put (msg : string) : M unit := λ w,
  (Ok (), {| success_flag := success_flag w;
             comment_queue := comment_queue w ++ [msg];
             memory_stats := memory_stats w |}, [EQueuePut msg]).

(** [memory_stats[key] = v] *)
Definition stats_set (key : string) (v : pyval) : M unit := λ w,
  (Ok (), {| success_flag := success_flag w; comment_queue := comment_queue w;
             memory_stats := <[key := v]> (memory_stats w) |},
   [EStatsSet key v]).

(** [memory_stats.get(key, dflt)] *)
Definition stats_get (key : string) (dflt : pyval) : M pyval := λ w,
  (Ok (default dflt (memory_stats w !! key)), w, [EStatsGet key]).

(** [print_msg(SCRIPT_LABEL, msg, lvl)] *)
Definition print_msg (msg : string) (lvl : level) : M unit :=
  emit (EPrintMsg msg lvl).

(** ** kill_process *)

Inductive wait_outcome : Type :=
| WaitExited             (* the process ended within the timeout *)
| WaitTimeoutExpired.    (* subprocess.TimeoutExpired *)

(** What the operating system answers to one call of [kill_process]. *)
Record kill_env : Type := mkKillEnv {
  getpgid_term : result Z;      (* os.getpgid before SIGTERM *)
  killpg_term : result unit;    (* os.killpg(_, SIGTERM) *)
  wait_5 : wait_outcome;        (* process.wait(timeout=5) *)
  getpgid_kill : result Z;      (* os.getpgid before SIGKILL *)
  killpg_kill : result unit     (* os.killpg(_, SIGKILL) *)
}.

Definition os_getpgid (r : result Z) : M Z :=
  emit EGetpgid;; answer r.

Definition os_killpg (r : result unit) (pgid : Z) (sig : signal) : M unit :=
  emit (EKillpg pgid sig);; answer r.

Definition process_wait (o : wait_outcome) (timeout : Z) : M wait_outcome :=
  emit (EWait timeout);; mret o.

Definition kill_process (k : kill_env) : M unit :=
  pgid ← os_getpgid (getpgid_term k);
  os_killpg (killpg_term k) pgid SIGTERM;;
  o ← process_wait (wait_5 k) 5;
  match o with
  | WaitExited => mret ()
  | WaitTimeoutExpired =>
      pgid' ← os_getpgid (getpgid_kill k);
      os_killpg (killpg_kill k) pgid' SIGKILL
  end;;
  print_msg "Process killed." LvlError.

(** A call whose five answers are all favourable. *)
Definition kill_ok (pgid : Z) (o : wait_outcome) : kill_env :=
  {| getpgid_term := Ok pgid; killpg_term := Ok (); wait_5 := o;
     getpgid_kill := Ok pgid; killpg_kill := Ok () |}.

(** A call on a process that is gone: the lookup of its group fails. *)
Definition kill_gone : kill_env :=
  {| getpgid_term := Raise ProcessLookupError;
     killpg_term := Raise ProcessLookupError; wait_5 := WaitExited;
     getpgid_kill := Raise ProcessLookupError;
     killpg_kill := Raise ProcessLookupError |}.


(** ** Numbers and their formatting *)

(** [x > y] on floats. *)
Definition Qgtb (x y : Q) : bool := negb (Qle_bool x y).

(** Python's [max(a, b)]: the first argument unless the second is greater. *)
Definition py_max (a b : Q) : Q := if Qgtb b a then b else a.

(** [bytes / (1024**3)] *)
Definition to_gb (bytes : Z) : Q := inject_Z bytes / inject_Z (1024 ^ 3).

(** Rounding to the nearest integer, ties to even, as the float formatter
    does. *)
Definition round_half_even (q : Q) : Z :=
  let fl := Qfloor q in
  match (2 * (q - inject_Z fl) ?= 1)%Q with
  | Lt => fl
  | Gt => fl + 1
  | Eq => if Z.even fl then fl else fl + 1
  end.

(** [f"{q:.1f}"] *)
Definition format_1f (q : Q) : string :=
  let t := Z.abs (round_half_even (q * 10)) in
  (if Qgtb 0 q then "-" else "") +:+ pretty (t / 10) +:+ "." +:+ pretty (t mod 10).

(** [f"{q:.0%}"] *)
Definition format_pct0 (q : Q) : string :=
  let t := Z.abs (round_half_even (q * 100)) in
  (if Qgtb 0 q then "-" else "") +:+ pretty t +:+ "%".

(** [s.zfill(width)]: zeros on the left, after a leading sign. *)
Fixpoint zeros (n : nat) : string :=
  match n with
  | O => ""
  | S n' => String "0"%char (zeros n')
  end.

Definition zfill (width : nat) (s : string) : string :=
  let n := String.length s in
  if (width <=? n)%nat then s
  else
    let fill := zeros (width - n) in
    match s with
    | String c rest =>
        if bool_decide (c = "+"%char ∨ c = "-"%char)
        then String c (fill +:+ rest)
        else fill +:+ s
    | EmptyString => fill
    end.


(** ** monitor_memory *)

Definition MAX_SWAP_PERC : Q := 80 # 100.
Definition MAX_RAM_PERC : Q := 95 # 100.

(** One pass of the sampling loop, as the environment decides it: the
    readings of [psutil] (bytes) and of [pynvml] ([None] when the read
    raises), or one of the [psutil] errors the loop catches. *)
Record sample : Type := mkSample {
  ram_used_bytes : Z;          (* psutil.virtual_memory().used *)
  swap_used_bytes : Z;         (* psutil.swap_memory().used *)
  gpu_used_bytes : option Z    (* nvmlDeviceGetMemoryInfo(handle).used *)
}.

Inductive tick : Type :=
| TickSample (s : sample)
| TickPsutilError.   (* NoSuchProcess, AccessDenied or ZombieProcess *)

(** What the monitor meets.  [ticks] are the passes made while
    [process.poll()] is [None]; after the last one the process has ended. *)
Record monitor_env : Type := mkMonitorEnv {
  nvml_init : bool;              (* pynvml.nvmlInit() returns *)
  nvml_count : option Z;         (* pynvml.nvmlDeviceGetCount() *)
  nvml_handle : bool;            (* nvmlDeviceGetHandleByIndex(0) returns *)
  swap_0_bytes : Z;              (* psutil.swap_memory().used at start *)
  swap_total_bytes : Z;          (* psutil.swap_memory().total *)
  ram_0_bytes : Z;               (* psutil.virtual_memory().used at start *)
  ram_total_bytes : Z;           (* psutil.virtual_memory().total *)
  gpu_0_bytes : option Z;        (* the first GPU read *)
  ticks : list tick;
  breach_kill : kill_env         (* the answers to kill_process on a breach *)
}.

(** The local [gpu_handle]: obtained when the three NVML calls succeed and
    a device is counted. *)
Definition gpu_handle (me : monitor_env) : bool :=
  if nvml_init me then
    match nvml_count me with
    | Some n => if 0 <? n then nvml_handle me else false
    | None => false
    end
  else false.

(** The snapshots taken before the loop. *)
Record baseline : Type := mkBaseline {
  swap_0 : Q; swap_max : Q; ram_0 : Q; ram_max : Q; gpu_0 : Q
}.

Definition snapshots (me : monitor_env) : baseline :=
  {| swap_0 := to_gb (swap_0_bytes me);
     swap_max := to_gb (swap_total_bytes me);
     ram_0 := to_gb (ram_0_bytes me);
     ram_max := to_gb (ram_total_bytes me);
     gpu_0 := if gpu_handle me then
                match gpu_0_bytes me with
                | Some b => to_gb b
                | None => 0
                end
              else 0 |}.

(** The running maxima [ram_inc_max, swap_inc_max, gpu_inc_max]. *)
Record peaks : Type := mkPeaks {
  ram_inc_max : Q; swap_inc_max : Q; gpu_inc_max : Q
}.

Definition peaks_0 : peaks :=
  {| ram_inc_max := 0; swap_inc_max := 0; gpu_inc_max := 0 |}.

Definition ram_perc (b : baseline) (s : sample) : Q :=
  if Qgtb (ram_max b) 0 then to_gb (ram_used_bytes s) / ram_max b else 0.

Definition swap_perc (b : baseline) (s : sample) : Q :=
  if Qgtb (swap_max b) 0 then to_gb (swap_used_bytes s) / swap_max b else 0.

Definition ram_msg (b : baseline) (s : sample) : string :=
  "RAM threshold exceeded: " +:+ format_1f (to_gb (ram_used_bytes s)) +:+ "/"
  +:+ format_1f (ram_max b) +:+ " GB (> " +:+ format_pct0 MAX_RAM_PERC +:+ ")".

Definition swap_msg (b : baseline) (s : sample) : string :=
  "Swap threshold exceeded: " +:+ format_1f (to_gb (swap_used_bytes s)) +:+ "/"
  +:+ format_1f (swap_max b) +:+ " GB (> " +:+ format_pct0 MAX_SWAP_PERC +:+ ")".

(** Part 2 of the loop body: the running maxima after a sample. *)
Definition track (has_gpu : bool) (b : baseline) (s : sample) (p : peaks) : peaks :=
  {| ram_inc_max := py_max (ram_inc_max p) (to_gb (ram_used_bytes s) - ram_0 b);
     swap_inc_max := py_max (swap_inc_max p) (to_gb (swap_used_bytes s) - swap_0 b);
     gpu_inc_max :=
       if has_gpu then
         match gpu_used_bytes s with
         | Some g => py_max (gpu_inc_max p) (to_gb g - gpu_0 b)
         | None => gpu_inc_max p
         end
       else gpu_inc_max p |}.

(** The body of the loop on one sample: [None] is [break], [Some p] goes on
    to the next pass with the maxima [p]. *)
Definition monitor_step (k : kill_env) (has_gpu : bool) (interval : Z)
    (b : baseline) (s : sample) (p : peaks) : M (option peaks) :=
  if Qgtb (ram_perc b s) MAX_RAM_PERC then
    let msg := ram_msg b s in
    print_msg msg LvlError;;
    set_flag false;;
    queue_put (msg +:+ ". Process killed.");;
    kill_process k;;
    mret None
  else if Qgtb (swap_perc b s) MAX_SWAP_PERC then
    let msg := swap_msg b s in
    print_msg msg LvlError;;
    set_flag false;;
    queue_put (msg +:+ ". Process killed.");;
    kill_process k;;
    mret None
  else
    let p' := track has_gpu b s p in
    emit (ESleep interval);;
    mret (Some p').

(** [while process.poll() is None: ...], on the passes of the environment. *)
Fixpoint monitor_loop (k : kill_env) (has_gpu : bool) (interval : Z)
    (b : baseline) (ts : list tick) (p : peaks) : M peaks :=
  match ts with
  | [] => mret p
  | TickPsutilError :: _ => mret p
  | TickSample s :: rest =>
      r ← monitor_step k has_gpu interval b s p;
      match r with
      | None => mret p
      | Some p' => monitor_loop k has_gpu interval b rest p'
      end
  end.

Definition monitor_memory (me : monitor_env) (interval : Z) : M unit :=
  emit ENvmlInit;;
  let has_gpu := gpu_handle me in
  let b := snapshots me in
  p ← monitor_loop (breach_kill me) has_gpu interval b (ticks me) peaks_0;
  (if has_gpu then emit ENvmlShutdown else mret ());;
  stats_set "ram" (PyNum (ram_inc_max p));;
  stats_set "swap" (PyNum (swap_inc_max p));;
  stats_set "gpu" (PyNum (gpu_inc_max p)).

(** ** execute *)

Definition TRAJECTORY_FILE_NAME : string := "KeyFrameTrajectory".

(** The default of the parameter [timeout_seconds]. *)
Definition default_timeout_seconds : Z := 1 * 60 * 1000000.

Inductive comm_outcome : Type :=
| CommReturned (returncode : Z)   (* the child ended, with this exit code *)
| CommTimeoutExpired.             (* subprocess.TimeoutExpired *)

(** What one call of [execute] meets.  The monitor thread runs while the
    caller is in [communicate]; [monitor_first] tells whether its writes
    land before the caller handles the outcome of [communicate] or
    after. *)
Record exec_env : Type := mkExecEnv {
  open_log : result unit;        (* open(log_file_path, 'w') *)
  popen : result Z;              (* subprocess.Popen(...): the pid *)
  communicate : comm_outcome;    (* process.communicate(timeout=...) *)
  timeout_kill : kill_env;       (* the answers to kill_process on timeout *)
  monitor : monitor_env;
  monitor_first : bool;
  fs_exists : Path → bool        (* Path.exists(), after the run *)
}.

Record RunResult : Type := mkRunResult {
  success : bool;
  comments : string;
  ram : pyval;
  swap : pyval;
  gpu : pyval
}.

(** The body of a thread: an exception ends the thread, not its parent. *)
Definition run_thread (m : M unit) : M unit := λ w,
  match m w with
  | (_, w', t) => (Ok (), w', t)
  end.

(** [with open(...) as log_file:] the file is closed however the block
    ends. *)
Definition with_file {A} (m : M A) : M A := λ w,
  match m w with
  | (r, w', t) => (r, w', t ++ [EClose])
  end.

(** The string ["\n"]. *)
Definition newline : string := String (ascii_of_nat 10) "".

(** [while not comment_queue.empty(): comments += comment_queue.get() + newline],
    on the content of the queue. *)
Fixpoint drain (q : list string) (comments : string) : string * list event :=
  match q with
  | [] => (comments, [])
  | msg :: q' =>
      let (c, t) := drain q' (comments +:+ msg +:+ newline) in
      (c, EQueueGet msg :: t)
  end.

Definition drain_queue (comments : string) : M string := λ w,
  let (c, t) := drain (comment_queue w) comments in
  (Ok c, {| success_flag := success_flag w; comment_queue := [];
            memory_stats := memory_stats w |}, t).

(** [comments = ""; comment_queue = queue.Queue(); success_flag = [True];
    memory_stats = {}] *)
Definition fresh : M unit := λ _, (Ok (), init_world, []).

Definition timeout_msg (timeout_seconds : Z) : string :=
  "Process took too long > " +:+ pretty timeout_seconds +:+ " seconds".

Definition log_file_path (exp_folder : Path) (exp_it : Z) : Path :=
  path_div exp_folder ("system_output_" +:+ zfill 5 (pretty exp_it) +:+ ".txt").

Definition artifact_path (exp_folder : Path) (exp_it : Z) : Path :=
  path_div exp_folder
    (zfill 5 (pretty exp_it) +:+ "_" +:+ TRAJECTORY_FILE_NAME +:+ ".csv").

(** The [try] around [communicate]: the comments of the caller after it. *)
Definition wait_child (env : exec_env) (timeout_seconds : Z) : M string :=
  emit (ECommunicate timeout_seconds);;
  match communicate env with
  | CommReturned _ => mret ""
  | CommTimeoutExpired =>
      print_msg (timeout_msg timeout_seconds) LvlError;;
      set_flag false;;
      kill_process (timeout_kill env);;
      mret (timeout_msg timeout_seconds +:+ ". Process killed.")
  end.

(** The block under [with open(...)]. *)
Definition supervise (env : exec_env) (command : string) (exp_it : Z)
    (exp_folder : Path) (timeout_seconds : Z) : M string :=
  emit (EPrintLogFile (log_file_path exp_folder exp_it));;
  emit (EPopen command);;
  _ ← answer (popen env);
  emit EThreadStart;;
  (if monitor_first env then run_thread (monitor_memory (monitor env) 10)
   else mret ());;
  comments ← wait_child env timeout_seconds;
  (if monitor_first env then mret ()
   else run_thread (monitor_memory (monitor env) 10));;
  emit EJoin;;
  drain_queue comments.

Definition execute (env : exec_env) (command : string) (exp_it : Z)
    (exp_folder : Path) (timeout_seconds : Z) : M RunResult :=
  fresh;;
  emit (EOpen (log_file_path exp_folder exp_it));;
  answer (open_log env);;
  comments ← with_file (supervise env command exp_it exp_folder timeout_seconds);
  emit (EExists (artifact_path exp_folder exp_it));;
  (if negb (fs_exists env (artifact_path exp_folder exp_it))
   then set_flag false else mret ());;
  s ← read_flag;
  r ← stats_get "ram" (PyStr "N/A");
  sw ← stats_get "swap" (PyStr "N/A");
  g ← stats_get "gpu" (PyStr "N/A");
  mret {| success := s; comments := comments; ram := r; swap := sw; gpu := g |}.

(** * The vocabulary of the properties *)

(** The calls of [kill_process] that look the process group up all
    succeed. *)
Definition lookups_ok (k : kill_env) : bool :=
  match getpgid_term k, killpg_term k with
  | Ok _, Ok _ =>
      match wait_5 k with
      | WaitExited => true
      | WaitTimeoutExpired =>
          match getpgid_kill k, killpg_kill k with
          | Ok _, Ok _ => true
          | _, _ => false
          end
      end
  | _, _ => false
  end.

(** The error-level messages ["Process killed."] among some events. *)
Definition is_confirmation (ev : event) : bool :=
  match ev with
  | EPrintMsg msg LvlError => bool_decide (msg = "Process killed.")
  | _ => false
  end.

Definition confirmations (t : list event) : nat :=
  length (filter (λ ev, is_confirmation ev = true) t).

(** A sample breaches the RAM threshold, the swap threshold, either. *)
Definition ram_breach (b : baseline) (s : sample) : bool :=
  Qgtb (ram_perc b s) MAX_RAM_PERC.

Definition swap_breach (b : baseline) (s : sample) : bool :=
  Qgtb (swap_perc b s) MAX_SWAP_PERC.

Definition breach (b : baseline) (s : sample) : bool :=
  ram_breach b s || swap_breach b s.

(** The diagnostic queued for a breaching sample. *)
Definition diagnostic (b : baseline) (s : sample) : string :=
  (if ram_breach b s then ram_msg b s else swap_msg b s)
  +:+ ". Process killed.".

(** The samples of the passes that end without a breach, up to the first
    breach, [psutil] error or end of the process. *)
Fixpoint sampled (b : baseline) (ts : list tick) : list sample :=
  match ts with
  | TickSample s :: rest => if breach b s then [] else s :: sampled b rest
  | _ => []
  end.

(** The breaching sample the loop meets, if it meets one. *)
Fixpoint first_breach (b : baseline) (ts : list tick) : option sample :=
  match ts with
  | TickSample s :: rest => if breach b s then Some s else first_breach b rest
  | _ => None
  end.

(** A threshold breach occurs during the monitoring: after some passes
    without a breach, a pass reads a breaching sample. *)
Definition breach_occurs (me : monitor_env) : Prop :=
  ∃ pre s rest,
    ticks me = (TickSample <$> pre) ++ TickSample s :: rest
    ∧ Forall (λ x, breach (snapshots me) x = false) pre
    ∧ breach (snapshots me) s = true.

(** The monitor reaches its last statement: no exception of
    [kill_process] ends its thread. *)
Definition monitor_completes (me : monitor_env) : Prop :=
  breach_occurs me → lookups_ok (breach_kill me) = true.

(** The running maxima after some samples. *)
Definition peaks_after (has_gpu : bool) (b : baseline) (l : list sample)
    (p : peaks) : peaks :=
  foldl (λ p s, track has_gpu b s p) p l.

(** One [time.sleep(interval)] for each of some samples. *)
Definition sleeps (interval : Z) (l : list sample) : list event :=
  (λ _, ESleep interval) <$> l.

(** The increments over the baseline that some samples show. *)
Definition ram_increments (b : baseline) (l : list sample) : list Q :=
  (λ s, to_gb (ram_used_bytes s) - ram_0 b)%Q <$> l.

Definition swap_increments (b : baseline) (l : list sample) : list Q :=
  (λ s, to_gb (swap_used_bytes s) - swap_0 b)%Q <$> l.

(** [x] is the greatest number of [l]. *)
Definition is_maximum (x : Q) (l : list Q) : Prop :=
  (∃ y, y ∈ l ∧ x == y) ∧ ∀ y, y ∈ l → (y <= x)%Q.

(** The same environment with other passes of the loop. *)
Definition with_ticks (me : monitor_env) (ts : list tick) : monitor_env :=
  {| nvml_init := nvml_init me; nvml_count := nvml_count me;
     nvml_handle := nvml_handle me; swap_0_bytes := swap_0_bytes me;
     swap_total_bytes := swap_total_bytes me; ram_0_bytes := ram_0_bytes me;
     ram_total_bytes := ram_total_bytes me; gpu_0_bytes := gpu_0_bytes me;
     ticks := ts; breach_kill := breach_kill me |}.

(** The same environment with another answer of [communicate]. *)
Definition with_communicate (env : exec_env) (c : comm_outcome) : exec_env :=
  {| open_log := open_log env; popen := popen env; communicate := c;
     timeout_kill := timeout_kill env; monitor := monitor env;
     monitor_first := monitor_first env; fs_exists := fs_exists env |}.

(** The operations on the shared objects, and the join, among some
    events. *)
Definition is_shared_op (ev : event) : bool :=
  match ev with
  | EFlagWrite _ | EFlagRead _ | EQueuePut _ | EQueueGet _
  | EStatsSet _ _ | EStatsGet _ | EJoin => true
  | _ => false
  end.

Definition shared_ops (t : list event) : list event :=
  List.filter is_shared_op t.

(** The reads that [execute] makes of what the monitor leaves. *)
Definition is_read (ev : event) : bool :=
  match ev with
  | EQueueGet _ | EFlagRead _ | EStatsGet _ => true
  | _ => false
  end.

(** The values written to the flag, the messages put in the queue and
    those taken from it, in the order of the events. *)
Definition flag_writes (t : list event) : list bool :=
  omap (λ ev, match ev with EFlagWrite b => Some b | _ => None end) t.

Definition queue_puts (t : list event) : list string :=
  omap (λ ev, match ev with EQueuePut m => Some m | _ => None end) t.

Definition queue_gets (t : list event) : list string :=
  omap (λ ev, match ev with EQueueGet m => Some m | _ => None end) t.

(** The loop of the monitor meets a breach. *)
Definition breached (me : monitor_env) : bool :=
  match first_breach (snapshots me) (ticks me) with
  | Some _ => true
  | None => false
  end.

Definition completes (me : monitor_env) : bool :=
  negb (breached me) || lookups_ok (breach_kill me).

(** The diagnostics the monitor queues: one for the breach, if any. *)
Definition diagnostics (me : monitor_env) : list string :=
  match first_breach (snapshots me) (ticks me) with
  | Some s => [diagnostic (snapshots me) s]
  | None => []
  end.

(** The running maxima when the loop ends. *)
Definition final_peaks (me : monitor_env) : peaks :=
  peaks_after (gpu_handle me) (snapshots me)
    (sampled (snapshots me) (ticks me)) peaks_0.

Definition store_peaks (p : peaks) (m : gmap string pyval) : gmap string pyval :=
  <["gpu" := PyNum (gpu_inc_max p)]>
    (<["swap" := PyNum (swap_inc_max p)]>
       (<["ram" := PyNum (ram_inc_max p)]> m)).

(** The shared objects once the monitor thread has ended. *)
Definition world_after_monitor (me : monitor_env) (w : world) : world :=
  {| success_flag := success_flag w && negb (breached me);
     comment_queue := comment_queue w ++ diagnostics me;
     memory_stats := if completes me
                     then store_peaks (final_peaks me) (memory_stats w)
                     else memory_stats w |}.

(** The operations of the monitor thread on the shared objects. *)
Definition monitor_ops (me : monitor_env) : list event :=
  (diagnostics me ≫= λ d, [EFlagWrite false; EQueuePut d])
  ++ (if completes me
      then [EStatsSet "ram" (PyNum (ram_inc_max (final_peaks me)));
            EStatsSet "swap" (PyNum (swap_inc_max (final_peaks me)));
            EStatsSet "gpu" (PyNum (gpu_inc_max (final_peaks me)))]
      else []).

(** The wait of [execute] ends by the timeout. *)
Definition timed_out (env : exec_env) : bool :=
  match communicate env with
  | CommTimeoutExpired => true
  | CommReturned _ => false
  end.

(** Some diagnostics, each followed by a newline. *)
Definition lines (q : list string) : string :=
  foldr (λ msg acc, msg +:+ newline +:+ acc) "" q.

(** [execute] reaches its [return]: the log file opens, the child is
    spawned and, on timeout, [kill_process] returns. *)
Definition execute_returns (env : exec_env) : bool :=
  match open_log env, popen env with
  | Ok _, Ok _ => negb (timed_out env) || lookups_ok (timeout_kill env)
  | _, _ => false
  end.

(** What [execute] writes to the flag on timeout. *)
Definition timeout_ops (env : exec_env) : list event :=
  if timed_out env then [EFlagWrite false] else [].

(** The statistic that [execute] reads back under a key of the monitor. *)
Definition reported (me : monitor_env) (v : Q) : pyval :=
  if completes me then PyNum v else PyStr "N/A".

Definition expected_result (env : exec_env) (exp_it : Z) (exp_folder : Path)
    (timeout_seconds : Z) : RunResult :=
  {| success := negb (timed_out env) && negb (breached (monitor env))
                && fs_exists env (artifact_path exp_folder exp_it);
     comments := (if timed_out env
                  then timeout_msg timeout_seconds +:+ ". Process killed."
                  else "") +:+ lines (diagnostics (monitor env));
     ram := reported (monitor env) (ram_inc_max (final_peaks (monitor env)));
     swap := reported (monitor env) (swap_inc_max (final_peaks (monitor env)));
     gpu := reported (monitor env) (gpu_inc_max (final_peaks (monitor env))) |}.

(** The operations on the shared objects during a call of [execute] that
    returns: those of the two threads up to the join, then those of the
    caller alone. *)
Definition before_join (env : exec_env) : list event :=
  if monitor_first env then monitor_ops (monitor env) ++ timeout_ops env
  else timeout_ops env ++ monitor_ops (monitor env).

Definition after_join (env : exec_env) (exp_it : Z) (exp_folder : Path)
    (timeout_seconds : Z) : list event :=
  (EQueueGet <$> diagnostics (monitor env))
  ++ (if fs_exists env (artifact_path exp_folder exp_it) then []
      else [EFlagWrite false])
  ++ [EFlagRead (success (expected_result env exp_it exp_folder timeout_seconds));
      EStatsGet "ram"; EStatsGet "swap"; EStatsGet "gpu"].

(** The operations on the shared objects during a call of [execute] that
    raises: only a timeout whose [kill_process] fails gets that far. *)
Definition raise_ops (env : exec_env) : list event :=
  match open_log env, popen env with
  | Ok _, Ok _ =>
      (if monitor_first env then monitor_ops (monitor env) else [])
      ++ [EFlagWrite false]
  | _, _ => []
  end.

(** * Sample runs *)

Definition GiB : Z := 1024 ^ 3.

(** A host without GPU, 16 GiB of RAM of which 5 are in use at start, and a
    child that is seen once, with 3 GiB in use, before it ends. *)
Definition quiet_monitor : monitor_env :=
  {| nvml_init := false; nvml_count := None; nvml_handle := false;
     swap_0_bytes := 0; swap_total_bytes := 8 * GiB;
     ram_0_bytes := 5 * GiB; ram_total_bytes := 16 * GiB;
     gpu_0_bytes := None;
     ticks := [TickSample (mkSample (3 * GiB) 0 None)];
     breach_kill := kill_ok 4242 WaitExited |}.

(** The same host; the second pass reads 15.5 GiB of RAM in use. *)
Definition ram_hungry_monitor : monitor_env :=
  with_ticks quiet_monitor
    [TickSample (mkSample (6 * GiB) 0 None);
     TickSample (mkSample (16642998272) 0 None);
     TickSample (mkSample (7 * GiB) 0 None)].

(** A run in the folder [exp], of index 3, whose trajectory file is
    there at the end. *)
Definition clean_run : exec_env :=
  {| open_log := Ok (); popen := Ok 4242; communicate := CommReturned 0;
     timeout_kill := kill_ok 4242 WaitExited; monitor := quiet_monitor;
     monitor_first := true;
     fs_exists := λ p, bool_decide (p = ["exp"; "00003_KeyFrameTrajectory.csv"]) |}.

(** A run in which [subprocess.Popen] itself raises: the shell that is to
    run the command cannot be started. *)
Definition unspawned_run : exec_env :=
  {| open_log := Ok (); popen := Raise PermissionError;
     communicate := CommReturned 0;
     timeout_kill := kill_ok 4242 WaitExited; monitor := quiet_monitor;
     monitor_first := true; fs_exists := λ _, false |}.

(** A run stopped by the monitor. *)
Definition ram_hungry_run : exec_env :=
  {| open_log := Ok (); popen := Ok 4242; communicate := CommReturned (-15);
     timeout_kill := kill_ok 4242 WaitExited; monitor := ram_hungry_monitor;
     monitor_first := true; fs_exists := λ _, false |}.

(** Samples of the host of [quiet_monitor]: RAM above its threshold, swap
    above its threshold, both below, both above. *)
Definition ram_high : sample := mkSample 16642998272 0 None.
Definition swap_high : sample := mkSample (6 * GiB) (7 * GiB) None.
Definition both_low : sample := mkSample (6 * GiB) (1 * GiB) None.
Definition both_high : sample := mkSample 16642998272 (7 * GiB) None.

(** The same host; the second pass reads RAM and swap both above their
    thresholds. *)
Definition greedy_monitor : monitor_env :=
  with_ticks quiet_monitor
    [TickSample both_low; TickSample both_high; TickSample both_low].

(** The same host; the second pass reads 7 of the 8 GiB of swap in use. *)
Definition swap_hungry_monitor : monitor_env :=
  with_ticks quiet_monitor
    [TickSample both_low; TickSample swap_high; TickSample both_low].

(** A run whose command names no executable.  The command is handed to
    the shell ([shell=True]): [Popen] returns the pid of the shell, the
    shell ends with exit code 127 before the monitor makes a pass, and no
    trajectory file is written. *)
Definition missing_executable_run : exec_env :=
  {| open_log := Ok (); popen := Ok 4242; communicate := CommReturned 127;
     timeout_kill := kill_ok 4242 WaitExited;
     monitor := with_ticks quiet_monitor [];
     monitor_first := true; fs_exists := λ _, false |}.


(** * The vocabulary of further properties *)

(** What a call of [kill_process] answers and emits; neither depends on
    the shared objects. *)
Definition kill_result (k : kill_env) : result unit :=
  (kill_process k init_world).1.1.

Definition kill_events (k : kill_env) : list event :=
  (kill_process k init_world).2.

(** The events of the monitor thread, oldest first: the passes without
    breach, the breach if one is met, the last statements if the thread
    gets there. *)
Definition breach_events (me : monitor_env) (s : sample) : list event :=
  [EPrintMsg (if ram_breach (snapshots me) s then ram_msg (snapshots me) s
              else swap_msg (snapshots me) s) LvlError;
   EFlagWrite false; EQueuePut (diagnostic (snapshots me) s)]
  ++ kill_events (breach_kill me).

Definition monitor_tail (me : monitor_env) : list event :=
  (if gpu_handle me then [ENvmlShutdown] else [])
  ++ [EStatsSet "ram" (PyNum (ram_inc_max (final_peaks me)));
      EStatsSet "swap" (PyNum (swap_inc_max (final_peaks me)));
      EStatsSet "gpu" (PyNum (gpu_inc_max (final_peaks me)))].

Definition monitor_trace (me : monitor_env) (interval : Z) : list event :=
  ENvmlInit
  :: sleeps interval (sampled (snapshots me) (ticks me))
  ++ match first_breach (snapshots me) (ticks me) with
     | Some s => breach_events me s
     | None => []
     end
  ++ (if completes me then monitor_tail me else []).

Definition monitor_result (me : monitor_env) : result unit :=
  match first_breach (snapshots me) (ticks me) with
  | Some _ => kill_result (breach_kill me)
  | None => Ok ()
  end.

(** The events of a call of [execute], oldest first. *)
Definition wait_events (env : exec_env) (timeout_seconds : Z) : list event :=
  ECommunicate timeout_seconds
  :: (if timed_out env
      then EPrintMsg (timeout_msg timeout_seconds) LvlError
           :: EFlagWrite false :: kill_events (timeout_kill env)
      else []).

Definition supervise_trace (env : exec_env) (command : string) (exp_it : Z)
    (exp_folder : Path) (timeout_seconds : Z) : list event :=
  [EPrintLogFile (log_file_path exp_folder exp_it); EPopen command]
  ++ match popen env with
     | Raise _ => []
     | Ok _ =>
         EThreadStart
         :: (if monitor_first env then monitor_trace (monitor env) 10 else [])
         ++ wait_events env timeout_seconds
         ++ (if execute_returns env
             then (if monitor_first env then []
                   else monitor_trace (monitor env) 10)
                  ++ EJoin :: (EQueueGet <$> diagnostics (monitor env))
             else [])
     end.

Definition execute_trace (env : exec_env) (command : string) (exp_it : Z)
    (exp_folder : Path) (timeout_seconds : Z) : list event :=
  EOpen (log_file_path exp_folder exp_it)
  :: match open_log env with
     | Raise _ => []
     | Ok _ =>
         supervise_trace env command exp_it exp_folder timeout_seconds
         ++ EClose
         :: (if execute_returns env
             then EExists (artifact_path exp_folder exp_it)
                  :: (if fs_exists env (artifact_path exp_folder exp_it)
                      then [] else [EFlagWrite false])
                  ++ [EFlagRead (success (expected_result env exp_it
                                            exp_folder timeout_seconds));
                      EStatsGet "ram"; EStatsGet "swap"; EStatsGet "gpu"]
             else [])
     end.

Definition execute_result (env : exec_env) (exp_it : Z) (exp_folder : Path)
    (timeout_seconds : Z) : result RunResult :=
  match open_log env, popen env with
  | Raise e, _ => Raise e
  | Ok _, Raise e => Raise e
  | Ok _, Ok _ =>
      match (if timed_out env then kill_result (timeout_kill env) else Ok ()) with
      | Raise e => Raise e
      | Ok _ => Ok (expected_result env exp_it exp_folder timeout_seconds)
      end
  end.

(** The signals delivered, the closings of the log file, the releases of
    NVML and the joins among some events. *)
Definition signals (t : list event) : list (Z * signal) :=
  omap (λ ev, match ev with EKillpg pg sig => Some (pg, sig) | _ => None end) t.

Definition count_events (f : event → bool) (t : list event) : nat :=
  length (List.filter f t).

Definition is_close (ev : event) : bool :=
  match ev with EClose => true | _ => false end.

Definition is_open (ev : event) : bool :=
  match ev with EOpen _ => true | _ => false end.

Definition is_shutdown (ev : event) : bool :=
  match ev with ENvmlShutdown => true | _ => false end.

Definition is_join (ev : event) : bool :=
  match ev with EJoin => true | _ => false end.

(** The events that only [kill_process] emits besides its confirmation. *)
Definition is_kill_event (ev : event) : bool :=
  match ev with
  | EGetpgid | EKillpg _ _ | EWait _ | EPrintMsg _ _ => true
  | _ => false
  end.

(** The events that only the monitor thread and [kill_process] emit. *)
Definition is_monitor_event (ev : event) : bool :=
  match ev with
  | ENvmlInit | ENvmlShutdown | ESleep _ | EFlagWrite _ | EQueuePut _
  | EStatsSet _ _ => true
  | _ => is_kill_event ev
  end.

(** The GPU increments that the reads of some samples show; a read that
    raised shows none. *)
Definition gpu_increments (b : baseline) (l : list sample) : list Q :=
  omap (λ s, (λ g, to_gb g - gpu_0 b)%Q <$> gpu_used_bytes s) l.

(** A run whose child ends by itself without leaving its trajectory. *)
Definition no_trajectory_run : exec_env :=
  {| open_log := Ok (); popen := Ok 4242; communicate := CommReturned 0;
     timeout_kill := kill_ok 4242 WaitExited; monitor := quiet_monitor;
     monitor_first := false; fs_exists := λ _, false |}.

(** A host with one GPU whose baseline is 1 GiB; the child is seen twice,
    the GPU read of the second pass raises. *)
Definition gpu_monitor : monitor_env :=
  {| nvml_init := true; nvml_count := Some 1; nvml_handle := true;
     swap_0_bytes := 0; swap_total_bytes := 8 * GiB;
     ram_0_bytes := 5 * GiB; ram_total_bytes := 16 * GiB;
     gpu_0_bytes := Some (1 * GiB);
     ticks := [TickSample (mkSample (6 * GiB) 0 (Some (3 * GiB)));
               TickSample (mkSample (6 * GiB) 0 None)];
     breach_kill := kill_ok 4242 WaitExited |}.

Definition gpu_run : exec_env :=
  {| open_log := Ok (); popen := Ok 4242; communicate := CommReturned 0;
     timeout_kill := kill_ok 4242 WaitExited; monitor := gpu_monitor;
     monitor_first := false; fs_exists := λ _, true |}.

(** A run stopped by the monitor, whose [kill_process] finds the process
    gone. *)
Definition unlucky_run : exec_env :=
  {| open_log := Ok (); popen := Ok 4242; communicate := CommReturned 0;
     timeout_kill := kill_ok 4242 WaitExited;
     monitor :=
       {| nvml_init := false; nvml_count := None; nvml_handle := false;
          swap_0_bytes := 0; swap_total_bytes := 8 * GiB;
          ram_0_bytes := 5 * GiB; ram_total_bytes := 16 * GiB;
          gpu_0_bytes := None; ticks := [TickSample ram_high];
          breach_kill := kill_gone |};
     monitor_first := true; fs_exists := λ _, true |}.

(** * The command lines of a baseline *)

(** ** Python strings *)

(** [str(p)] for a path, as its components joined by [/]. *)
Definition path_str (p : Path) : string := String.concat "/" p.

(** [s.startswith(p)] *)
Definition startswith (p s : string) : bool := String.prefix p s.

(** [s[n:]] *)
Fixpoint string_drop (n : nat) (s : string) : string :=
  match n, s with
  | O, _ => s
  | S n', String _ r => string_drop n' r
  | S _, EmptyString => EmptyString
  end.

(** [s.replace(old, new)] for a non-empty [old]: the occurrences of [old]
    are replaced from the left, without overlap.  The fuel bounds the
    number of steps; the length of [s] is enough. *)
Fixpoint replace_fuel (fuel : nat) (old new s : string) : string :=
  match fuel with
  | O => s
  | S fuel' =>
      if String.prefix old s
      then new +:+ replace_fuel fuel' old new (string_drop (String.length old) s)
      else match s with
           | EmptyString => EmptyString
           | String c r => String c (replace_fuel fuel' old new r)
           end
  end.

Definition py_replace (old new s : string) : string :=
  replace_fuel (String.length s) old new s.

(** [old] occurs nowhere in [s]. *)
Definition absent (old s : string) : Prop :=
  ∀ a b, s ≠ a +:+ old +:+ b.

(** ** The objects *)

(** The values of the parameters of a baseline. *)
Inductive param : Type :=
| PInt (z : Z)
| PStr (s : string)
| PBool (b : bool).

(** [str(v)] *)
Definition py_str (v : param) : string :=
  match v with
  | PInt z => pretty z
  | PStr s => s
  | PBool true => "True"
  | PBool false => "False"
  end.

(** The fields of a baseline that its commands read; the dict
    [default_parameters] keeps the order of its insertions. *)
Record Baseline : Type := mkBaseline' {
  baseline_name : string;
  baseline_folder : string;
  baseline_path : Path;
  settings_yaml : Path;
  default_parameters : list (string * param)
}.

(** [BaselineVSLAMLab.__init__], given the folder [VSLAMLAB_BASELINES]. *)
Definition init_baseline (VSLAMLAB_BASELINES : Path) (name folder : string)
    (defaults : list (string * param)) : Baseline :=
  {| baseline_name := name;
     baseline_folder := folder;
     baseline_path := path_div VSLAMLAB_BASELINES folder;
     settings_yaml :=
       path_div (path_div VSLAMLAB_BASELINES folder)
         ("vslamlab_" +:+ name +:+ "_settings.yaml");
     default_parameters := defaults |}.

(** The fields of an experiment and of a dataset that the commands read. *)
Record Experiment : Type := mkExperiment {
  exp_folder_of : Path;                 (* Path(exp.folder) *)
  exp_parameters : gmap string param    (* exp.parameters *)
}.

Record Dataset : Type := mkDataset {
  dataset_path : Path;
  dataset_folder : string
}.

(** The outcome of a call that may raise. *)
Inductive py_error : Type :=
| AttributeError      (* 'NoneType' object has no attribute ... *)
| ValueError
| IndexError
| SystemExit (code : Z).

Inductive outcome (A : Type) : Type :=
| Returns (a : A)
| Raises (e : py_error).
Arguments Returns {A} a.
Arguments Raises {A} e.

(** ** build_execute_command_cpp *)

(** The loop over [default_parameters]: the value of the experiment when
    it has the key, the default otherwise. *)
Definition extend_cpp (exp : Experiment) (cmd : list string)
    (kv : string * param) : list string :=
  match exp_parameters exp !! kv.1 with
  | Some v => cmd ++ [kv.1 +:+ ":" +:+ py_str v]
  | None => cmd ++ [kv.1 +:+ ":" +:+ py_str kv.2]
  end.

(** The list [vslamlab_command] after the loop. *)
Definition vslamlab_command_cpp (b : Baseline) (exp_it : Z) (exp : Experiment)
    (d : Dataset) (sequence_name : string) : list string :=
  let sequence_path := path_div (dataset_path d) sequence_name in
  let exp_folder :=
    path_div (path_div (exp_folder_of exp) (dataset_folder d)) sequence_name in
  let calibration_yaml := path_div sequence_path "calibration.yaml" in
  let rgb_exp_csv := path_div exp_folder "rgb_exp.csv" in
  foldl (extend_cpp exp)
    ["sequence_path:" +:+ path_str sequence_path;
     "calibration_yaml:" +:+ path_str calibration_yaml;
     "rgb_csv:" +:+ path_str rgb_exp_csv;
     "exp_folder:" +:+ path_str exp_folder;
     "exp_id:" +:+ pretty exp_it;
     "settings_yaml:" +:+ path_str (settings_yaml b)]
    (default_parameters b).

Definition build_execute_command_cpp (b : Baseline) (exp_it : Z)
    (exp : Experiment) (d : Dataset) (sequence_name : string) : outcome string :=
  let vslamlab_command := vslamlab_command_cpp b exp_it exp d sequence_name in
  match List.find (startswith "mode:") vslamlab_command with
  | None => Raises AttributeError
  | Some s =>
      let mode_str := py_replace "mode:" "" s in
      Returns ("pixi run --frozen -e " +:+ baseline_name b +:+ " execute-"
               +:+ mode_str +:+ " " +:+ String.concat " " vslamlab_command)
  end.

(** ** build_execute_command_python *)

Definition extend_python (exp : Experiment) (cmd : list string)
    (kv : string * param) : list string :=
  match exp_parameters exp !! kv.1 with
  | Some v => cmd ++ ["--" +:+ kv.1 +:+ " " +:+ py_str v]
  | None => cmd ++ ["--" +:+ kv.1 +:+ " " +:+ py_str kv.2]
  end.

Definition vslamlab_command_python (b : Baseline) (exp_it : Z)
    (exp : Experiment) (d : Dataset) (sequence_name : string) : list string :=
  let sequence_path := path_div (dataset_path d) sequence_name in
  let exp_folder :=
    path_div (path_div (exp_folder_of exp) (dataset_folder d)) sequence_name in
  let calibration_yaml := path_div sequence_path "calibration.yaml" in
  let rgb_exp_csv := path_div exp_folder "rgb_exp.csv" in
  foldl (extend_python exp)
    ["--sequence_path " +:+ path_str sequence_path;
     "--calibration_yaml " +:+ path_str calibration_yaml;
     "--rgb_csv " +:+ path_str rgb_exp_csv;
     "--exp_folder " +:+ path_str exp_folder;
     "--exp_it " +:+ pretty exp_it;
     "--settings_yaml " +:+ path_str (settings_yaml b)]
    (default_parameters b).

Definition build_execute_command_python (b : Baseline) (exp_it : Z)
    (exp : Experiment) (d : Dataset) (sequence_name : string) : outcome string :=
  let vslamlab_command := vslamlab_command_python b exp_it exp d sequence_name in
  match List.find (startswith "--mode ") vslamlab_command with
  | None => Raises AttributeError
  | Some s =>
      let mode_str := py_replace "--mode " "" s in
      Returns ("pixi run --frozen -e " +:+ baseline_name b +:+ " execute-"
               +:+ mode_str +:+ " " +:+ String.concat " " vslamlab_command)
  end.

(** ** ORB-SLAM2 *)

(** [ORBSLAM2_baseline.__init__] *)
Definition ORBSLAM2_baseline (VSLAMLAB_BASELINES : Path)
    (name folder : string) : Baseline :=
  init_baseline VSLAMLAB_BASELINES name folder
    [("verbose", PInt 0); ("mode", PStr "mono");
     ("vocabulary",
      PStr (path_str (path_div (path_div (path_div VSLAMLAB_BASELINES folder)
                                  "Vocabulary") "ORBvoc.txt")))].

(** [ORBSLAM2_baseline.build_execute_command] *)
Definition ORBSLAM2_build_execute_command (b : Baseline) (exp_it : Z)
    (exp : Experiment) (d : Dataset) (sequence_name : string) : outcome string :=
  build_execute_command_cpp b exp_it exp d sequence_name.

(** The value a parameter takes in a command. *)
Definition effective (exp : Experiment) (kv : string * param) : string :=
  py_str (default kv.2 (exp_parameters exp !! kv.1)).

(** Sample objects. *)
Definition sample_baselines : Path := [""; "opt"; "VSLAM-LAB"; "Baselines"].

Definition sample_dataset : Dataset :=
  {| dataset_path := [""; "data"; "REPLICA"]; dataset_folder := "REPLICA" |}.

Definition sample_experiment : Experiment :=
  {| exp_folder_of := [""; "exp"; "demo"];
     exp_parameters := {[ "mode" := PStr "rgbd"; "max_rgb" := PInt 50 ]} |}.

(** The keys whose entry [next(...)] can select as the mode. *)
Definition selects_mode_cpp (k : string) : bool :=
  bool_decide (k = "mode") || startswith "mode:" k.

Definition selects_mode_python (k : string) : bool :=
  bool_decide (k = "mode") || startswith "mode " k.

(** The same experiment with other parameters. *)
Definition with_parameters (exp : Experiment) (ps : gmap string param)
    : Experiment :=
  {| exp_folder_of := exp_folder_of exp; exp_parameters := ps |}.

(** A run whose log file cannot be opened. *)
Definition unwritable_run : exec_env :=
  {| open_log := Raise PermissionError; popen := Ok 4242;
     communicate := CommReturned 0;
     timeout_kill := kill_ok 4242 WaitExited; monitor := quiet_monitor;
     monitor_first := true; fs_exists := λ _, true |}.

(** An experiment that sets no parameter. *)
Definition plain_experiment : Experiment :=
  {| exp_folder_of := [""; "exp"; "demo"]; exp_parameters := ∅ |}.

(** * The names of the files of a run *)

(** Reading a padded number back: the zeros after the sign are dropped. *)
Fixpoint strip_zeros (s : string) : string :=
  match s with
  | String c r => if bool_decide (c = "0"%char) then strip_zeros r else s
  | EmptyString => EmptyString
  end.

Definition unzfill (s : string) : string :=
  match s with
  | String c r =>
      if bool_decide (c = "-"%char) then String c (strip_zeros r)
      else strip_zeros s
  | EmptyString => EmptyString
  end.

Definition nonzero_digits : list ascii :=
  ["1"; "2"; "3"; "4"; "5"; "6"; "7"; "8"; "9"]%char.

(** * Properties *)

(** ** The model on small inputs *)

Example kill_ok_trace :
  kill_process (kill_ok 42 WaitTimeoutExpired) init_world
  = (Ok (), init_world,
     [EGetpgid; EKillpg 42 SIGTERM; EWait 5; EGetpgid; EKillpg 42 SIGKILL;
      EPrintMsg "Process killed." LvlError]).
Proof. reflexivity. Qed.

Example format_1f_ex : format_1f (to_gb 16642998272) = "15.5".
Proof. vm_compute. reflexivity. Qed.

Example format_pct0_ex : format_pct0 (95 # 100) = "95%".
Proof. vm_compute. reflexivity. Qed.

Example zfill_ex : zfill 5 (pretty 3) = "00003" ∧ zfill 5 (pretty (-3)) = "-0003"
                   ∧ zfill 5 (pretty 123456) = "123456".
Proof. vm_compute. auto. Qed.


Arguments format_1f : simpl never.
Arguments format_pct0 : simpl never.
Arguments zfill : simpl never.
Arguments to_gb : simpl never.

(** ** Comparisons *)

Lemma Qgtb_lt (x y : Q) : Qgtb x y = true ↔ (y < x)%Q.
Proof.
  unfold Qgtb. rewrite negb_true_iff, <- not_true_iff_false, Qle_bool_iff.
  split; [apply Qnot_le_lt | apply Qlt_not_le].
Qed.

Lemma Qgtb_le (x y : Q) : Qgtb x y = false ↔ (x <= y)%Q.
Proof.
  unfold Qgtb. rewrite negb_false_iff. apply Qle_bool_iff.
Qed.

Lemma py_max_l (a b : Q) : (a <= py_max a b)%Q.
Proof.
  unfold py_max. destruct (Qgtb b a) eqn:E.
  - apply Qlt_le_weak, Qgtb_lt, E.
  - apply Qle_refl.
Qed.

Lemma py_max_r (a b : Q) : (b <= py_max a b)%Q.
Proof.
  unfold py_max. destruct (Qgtb b a) eqn:E.
  - apply Qle_refl.
  - apply Qgtb_le, E.
Qed.

Lemma py_max_cases (a b : Q) : py_max a b = a ∨ py_max a b = b.
Proof. unfold py_max. destruct (Qgtb b a); auto. Qed.

(** ** kill_process *)

(** [kill_process] neither reads nor writes the shared objects. *)
Lemma kill_process_world (k : kill_env) (w : world) :
  kill_process k w
  = ((kill_process k init_world).1.1, w, (kill_process k init_world).2).
Proof.
  destruct k as [[g1|e1] [[]|e2] [|] [g2|e3] [[]|e4]]; reflexivity.
Qed.

Lemma kill_process_ok (k : kill_env) (w : world) :
  lookups_ok k = true → (kill_process k w).1.1 = Ok ().
Proof.
  destruct k as [[g1|e1] [[]|e2] [|] [g2|e3] [[]|e4]]; cbv; congruence.
Qed.

Lemma kill_process_raises (k : kill_env) (w : world) :
  lookups_ok k = false → ∃ e, (kill_process k w).1.1 = Raise e.
Proof.
  destruct k as [[g1|e1] [[]|e2] [|] [g2|e3] [[]|e4]]; cbv;
    try congruence; eauto.
Qed.

(** C4, as the code has it.  [kill_process] swallows the expiry of its
    5-second wait and nothing else.  An invocation returns exactly when
    every lookup of the process group it makes succeeds, and then it logs
    exactly one error-level ["Process killed."]; when a lookup fails
    because the process is gone, the error reaches the caller and that
    invocation logs no confirmation.  In both cases the shared objects are
    left as they were.  The same holds call by call for two invocations in
    a row. *)
Theorem kill_process_outcome (k1 k2 : kill_env) (w : world) :
  match kill_process k1 w with
  | (Ok _, w', t) =>
      lookups_ok k1 = true ∧ w' = w ∧ confirmations t = 1%nat
  | (Raise _, w', t) =>
      lookups_ok k1 = false ∧ w' = w ∧ confirmations t = 0%nat
  end
  ∧
  match (kill_process k1;; kill_process k2) w with
  | (Ok _, w', t) =>
      lookups_ok k1 = true ∧ lookups_ok k2 = true ∧ w' = w
      ∧ confirmations t = 2%nat
  | (Raise _, w', t) =>
      (lookups_ok k1 = false ∨ lookups_ok k2 = false) ∧ w' = w
      ∧ confirmations t = (if lookups_ok k1 then 1 else 0)%nat
  end.
Proof.
  destruct k1 as [[g1|e1] [[]|e2] [|] [g2|e3] [[]|e4]];
    destruct k2 as [[h1|f1] [[]|f2] [|] [h2|f3] [[]|f4]];
    cbv; auto 6.
Qed.

(** C4, the claim as stated fails: after a first call that reaped the
    child, the second call finds no process, raises [ProcessLookupError]
    and logs no second confirmation. *)
Lemma kill_process_twice_raises :
  (kill_process (kill_ok 42 WaitExited);; kill_process kill_gone) init_world
  = (Raise ProcessLookupError, init_world,
     [EGetpgid; EKillpg 42 SIGTERM; EWait 5;
      EPrintMsg "Process killed." LvlError; EGetpgid])
  ∧ ¬ ∃ w' t, (kill_process (kill_ok 42 WaitExited);; kill_process kill_gone)
                init_world = (Ok (), w', t).
Proof.
  split; [reflexivity|]. intros (w' & t & H). discriminate H.
Qed.

(** ** The sampling loop *)

Ltac unfold_monad :=
  unfold mbind, M_bind, mret, M_ret, print_msg, emit, set_flag, queue_put,
    answer, read_flag, stats_set, stats_get.

Section Loop.

Variables (k : kill_env) (g : bool) (i : Z) (b : baseline).

Lemma monitor_step_quiet s p w :
  breach b s = false →
  monitor_step k g i b s p w = (Ok (Some (track g b s p)), w, [ESleep i]).
Proof.
  unfold breach, ram_breach, swap_breach, monitor_step.
  intros [H1 H2]%orb_false_iff. rewrite H1, H2. reflexivity.
Qed.

Lemma monitor_step_breach s p w :
  breach b s = true →
  monitor_step k g i b s p w
  = (match (kill_process k init_world).1.1 with
     | Ok _ => Ok None
     | Raise e => Raise e
     end,
     {| success_flag := false;
        comment_queue := comment_queue w ++ [diagnostic b s];
        memory_stats := memory_stats w |},
     [EPrintMsg (if ram_breach b s then ram_msg b s else swap_msg b s) LvlError;
      EFlagWrite false; EQueuePut (diagnostic b s)]
     ++ (kill_process k init_world).2).
Proof.
  unfold breach, diagnostic, ram_breach, swap_breach, monitor_step.
  intros H.
  destruct (Qgtb (ram_perc b s) MAX_RAM_PERC) eqn:H1;
    [|simpl in H; rewrite H];
    unfold_monad; cbn [fst snd success_flag comment_queue memory_stats];
    (rewrite kill_process_world;
     destruct (kill_process k init_world) as [[[[]|e] w0] t0]; simpl;
     rewrite ?app_nil_r; reflexivity).
Qed.

Lemma monitor_loop_eq ts p w :
  monitor_loop k g i b ts p w
  = match first_breach b ts with
    | None =>
        (Ok (peaks_after g b (sampled b ts) p), w, sleeps i (sampled b ts))
    | Some s =>
        match monitor_step k g i b s (peaks_after g b (sampled b ts) p) w with
        | (Ok _, w', t) =>
            (Ok (peaks_after g b (sampled b ts) p), w',
             sleeps i (sampled b ts) ++ t)
        | (Raise e, w', t) => (Raise e, w', sleeps i (sampled b ts) ++ t)
        end
    end.
Proof.
  revert p. induction ts as [|[s|] rest IH]; intros p; try reflexivity.
  cbn [monitor_loop first_breach sampled].
  destruct (breach b s) eqn:Hb.
  - unfold mbind, M_bind. cbn [peaks_after foldl sleeps fmap list_fmap].
    rewrite (monitor_step_breach _ _ _ Hb).
    destruct ((kill_process k init_world).1.1); simpl;
      rewrite ?app_nil_r; reflexivity.
  - unfold mbind, M_bind. rewrite (monitor_step_quiet _ _ _ Hb).
    rewrite IH. cbn [peaks_after foldl sleeps fmap list_fmap].
    destruct (first_breach b rest) as [s'|]; [|reflexivity].
    fold (peaks_after g b (sampled b rest) (track g b s p)).
    destruct (monitor_step _ _ _ _ s' _ w) as [[[r|e] w'] t]; simpl;
      rewrite ?app_nil_r; reflexivity.
Qed.

End Loop.

Lemma first_breach_breach b ts s :
  first_breach b ts = Some s → breach b s = true.
Proof.
  induction ts as [|[x|] rest IH]; cbn; try discriminate.
  destruct (breach b x) eqn:E; [congruence | exact IH].
Qed.

Lemma first_breach_split b pre s rest :
  Forall (λ x, breach b x = false) pre →
  breach b s = true →
  first_breach b ((TickSample <$> pre) ++ TickSample s :: rest) = Some s
  ∧ sampled b ((TickSample <$> pre) ++ TickSample s :: rest) = pre.
Proof.
  intros Hpre Hs. induction Hpre as [|x pre Hx _ IH]; cbn.
  - rewrite Hs. auto.
  - rewrite Hx. destruct IH as [-> ->]. auto.
Qed.

Lemma first_breach_Some b ts s :
  first_breach b ts = Some s →
  ∃ pre rest, ts = (TickSample <$> pre) ++ TickSample s :: rest
              ∧ Forall (λ x, breach b x = false) pre.
Proof.
  induction ts as [|[x|] ts IH]; cbn; try discriminate.
  destruct (breach b x) eqn:E.
  - intros [= ->]. exists [], ts. auto.
  - intros (pre & rest & -> & Hpre)%IH. exists (x :: pre), rest. auto.
Qed.

Lemma sampled_quiet b pre :
  Forall (λ x, breach b x = false) pre →
  first_breach b (TickSample <$> pre) = None
  ∧ sampled b (TickSample <$> pre) = pre.
Proof.
  induction 1 as [|x pre Hx _ [IH1 IH2]]; cbn; [auto|].
  rewrite Hx, IH1, IH2. auto.
Qed.

Lemma sampled_no_breach b ts :
  Forall (λ x, breach b x = false) (sampled b ts).
Proof.
  induction ts as [|[x|] ts IH]; cbn; auto.
  destruct (breach b x) eqn:E; auto.
Qed.

Lemma breach_occurs_breached me : breach_occurs me ↔ breached me = true.
Proof.
  unfold breach_occurs, breached. split.
  - intros (pre & s & rest & -> & Hpre & Hs).
    destruct (first_breach_split _ _ _ rest Hpre Hs) as [-> _]. reflexivity.
  - destruct (first_breach _ _) as [s|] eqn:E; [intros _|discriminate].
    destruct (first_breach_Some _ _ _ E) as (pre & rest & Hts & Hpre).
    exists pre, s, rest. eauto using first_breach_breach.
Qed.

Lemma monitor_completes_completes me :
  monitor_completes me ↔ completes me = true.
Proof.
  unfold monitor_completes, completes.
  rewrite breach_occurs_breached, orb_true_iff, negb_true_iff.
  destruct (breached me), (lookups_ok (breach_kill me)); intuition congruence.
Qed.

(** ** The events of the callees *)

Arguments shared_ops : simpl never.

Lemma shared_ops_app t1 t2 : shared_ops (t1 ++ t2) = shared_ops t1 ++ shared_ops t2.
Proof. apply List.filter_app. Qed.

Lemma shared_ops_sleeps i l : shared_ops (sleeps i l) = [].
Proof. induction l; cbn; auto. Qed.

Lemma shared_ops_kill k : shared_ops (kill_process k init_world).2 = [].
Proof.
  destruct k as [[g1|e1] [[]|e2] [|] [g2|e3] [[]|e4]]; reflexivity.
Qed.

Lemma shared_ops_cons ev t :
  shared_ops (ev :: t)
  = if is_shared_op ev then ev :: shared_ops t else shared_ops t.
Proof. reflexivity. Qed.

Lemma shared_ops_nil : shared_ops [] = [].
Proof. reflexivity. Qed.

Lemma shared_ops_gets q : shared_ops (EQueueGet <$> q) = EQueueGet <$> q.
Proof.
  induction q as [|m q IH]; [reflexivity|].
  cbn [fmap list_fmap]. rewrite shared_ops_cons. cbn [is_shared_op].
  f_equal. exact IH.
Qed.

Create Rewrite HintDb shared_ops.

#[local] Hint Rewrite shared_ops_app shared_ops_cons shared_ops_sleeps
  shared_ops_kill shared_ops_gets shared_ops_nil : shared_ops.

Ltac ops_simpl :=
  repeat (progress (autorewrite with shared_ops; cbn [is_shared_op app])).

(** ** monitor_memory as a whole *)

Lemma monitor_memory_eq me i w :
  ∃ r t, monitor_memory me i w = (r, world_after_monitor me w, t)
         ∧ shared_ops t = monitor_ops me
         ∧ (r = Ok () ↔ completes me = true).
Proof.
  unfold monitor_memory, world_after_monitor, monitor_ops,
    completes, breached, diagnostics, final_peaks, store_peaks.
  unfold mbind at 1, M_bind at 1. cbn [emit].
  unfold mbind at 1, M_bind at 1. rewrite monitor_loop_eq.
  destruct (first_breach (snapshots me) (ticks me)) as [s|] eqn:E.
  - rewrite (monitor_step_breach _ _ _ _ _ _ _ (first_breach_breach _ _ _ E)).
    destruct (lookups_ok (breach_kill me)) eqn:Hk.
    + rewrite (kill_process_ok _ init_world Hk).
      destruct (gpu_handle me); unfold_monad; cbn;
        rewrite ?andb_false_r, ?app_nil_r;
        (eexists _, _; split; [reflexivity|]);
        (split; [ops_simpl; reflexivity | tauto]).
    + destruct (kill_process_raises _ init_world Hk) as [e ->].
      cbn. rewrite ?andb_false_r, ?app_nil_r.
      eexists _, _; split; [reflexivity|].
      split; [ops_simpl; reflexivity | split; discriminate].
  - destruct (gpu_handle me); unfold_monad; cbn;
      rewrite ?andb_true_r, ?app_nil_r;
      (eexists _, _; split; [reflexivity|]);
      (split; [ops_simpl; reflexivity | tauto]).
Qed.

Lemma run_monitor_eq me i w :
  ∃ t, run_thread (monitor_memory me i) w
       = (Ok (), world_after_monitor me w, t)
       ∧ shared_ops t = monitor_ops me.
Proof.
  unfold run_thread.
  destruct (monitor_memory_eq me i w) as (r & t & -> & Hops & _). eauto.
Qed.

(** ** execute as a whole *)

Lemma append_assoc (a b c : string) : (a +:+ b) +:+ c = a +:+ b +:+ c.
Proof.
  induction a as [|x a IH]; [reflexivity|].
  change (String x ((a +:+ b) +:+ c) = String x (a +:+ b +:+ c)). congruence.
Qed.

Lemma append_nil_r (a : string) : a +:+ "" = a.
Proof.
  induction a as [|x a IH]; [reflexivity|].
  change (String x (a +:+ "") = String x a). congruence.
Qed.

Lemma drain_eq q c : drain q c = (c +:+ lines q, EQueueGet <$> q).
Proof.
  revert c. induction q as [|msg q IH]; intros c; cbn [drain lines foldr].
  - now rewrite append_nil_r.
  - rewrite IH. fold (lines q). now rewrite !append_assoc.
Qed.

Lemma store_peaks_lookup p m :
  store_peaks p m !! "ram" = Some (PyNum (ram_inc_max p))
  ∧ store_peaks p m !! "swap" = Some (PyNum (swap_inc_max p))
  ∧ store_peaks p m !! "gpu" = Some (PyNum (gpu_inc_max p)).
Proof.
  unfold store_peaks. repeat split.
  - rewrite !lookup_insert_ne by done. apply lookup_insert_eq.
  - rewrite lookup_insert_ne by done. apply lookup_insert_eq.
  - apply lookup_insert_eq.
Qed.

Lemma reported_stats me :
  let m := if completes me then store_peaks (final_peaks me) ∅ else ∅ in
  default (PyStr "N/A") (m !! "ram")
  = reported me (ram_inc_max (final_peaks me))
  ∧ default (PyStr "N/A") (m !! "swap")
    = reported me (swap_inc_max (final_peaks me))
  ∧ default (PyStr "N/A") (m !! "gpu")
    = reported me (gpu_inc_max (final_peaks me)).
Proof.
  unfold reported. destruct (completes me); cbn zeta.
  - destruct (store_peaks_lookup (final_peaks me) ∅) as (-> & -> & ->). auto.
  - rewrite !lookup_empty. auto.
Qed.

Ltac run_execute :=
  unfold_monad; cbn -[run_thread monitor_memory kill_process drain].

Ltac close_execute Hops :=
  rewrite ?andb_true_r, ?andb_false_r, ?app_nil_r;
  (eexists _, _; split; [reflexivity|]);
  ops_simpl; rewrite ?Hops, <- ?app_assoc; reflexivity.

Lemma execute_returns_eq env command exp_it exp_folder timeout_seconds w :
  execute_returns env = true →
  ∃ w' t,
    execute env command exp_it exp_folder timeout_seconds w
    = (Ok (expected_result env exp_it exp_folder timeout_seconds), w', t)
    ∧ shared_ops t
      = before_join env
        ++ EJoin :: after_join env exp_it exp_folder timeout_seconds.
Proof.
  unfold execute_returns, execute, supervise, wait_child, with_file, fresh,
    drain_queue, expected_result, before_join, after_join, timeout_ops,
    timed_out.
  destruct env as [[[]|eo] [pid|ep] comm tk me mf ex]; try discriminate.
  cbn [open_log popen communicate timeout_kill monitor monitor_first fs_exists].
  intros Hret.
  destruct (reported_stats me) as (Hr & Hs & Hg). cbn zeta in Hr, Hs, Hg.
  destruct mf, comm as [rc|]; cbn [negb orb] in Hret; run_execute.
  - destruct (run_monitor_eq me 10 init_world) as (tm & -> & Hops).
    run_execute. rewrite drain_eq.
    destruct (ex (artifact_path exp_folder exp_it)); run_execute;
      rewrite Hr, Hs, Hg; close_execute Hops.
  - destruct (run_monitor_eq me 10 init_world) as (tm & -> & Hops).
    run_execute. rewrite kill_process_world.
    rewrite (kill_process_ok _ init_world Hret). run_execute. rewrite drain_eq.
    destruct (ex (artifact_path exp_folder exp_it)); run_execute;
      rewrite Hr, Hs, Hg; close_execute Hops.
  - destruct (run_monitor_eq me 10 init_world) as (tm & -> & Hops).
    run_execute. rewrite drain_eq.
    destruct (ex (artifact_path exp_folder exp_it)); run_execute;
      rewrite Hr, Hs, Hg; close_execute Hops.
  - rewrite kill_process_world.
    rewrite (kill_process_ok _ init_world Hret). run_execute.
    edestruct (run_monitor_eq me 10) as (tm & -> & Hops).
    run_execute. rewrite drain_eq.
    destruct (ex (artifact_path exp_folder exp_it)); run_execute;
      rewrite Hr, Hs, Hg; close_execute Hops.
Qed.

Lemma execute_raises_eq env command exp_it exp_folder timeout_seconds w :
  execute_returns env = false →
  ∃ e w' t,
    execute env command exp_it exp_folder timeout_seconds w = (Raise e, w', t)
    ∧ shared_ops t = raise_ops env.
Proof.
  unfold execute_returns, execute, supervise, wait_child, with_file, fresh,
    drain_queue, raise_ops, timed_out.
  destruct env as [[[]|eo] [pid|ep] comm tk me mf ex];
    cbn [open_log popen communicate timeout_kill monitor monitor_first
         fs_exists];
    intros Hret; run_execute; try (eexists _, _, _; split; reflexivity).
  destruct comm as [rc|]; cbn [negb orb] in Hret; [discriminate|].
  destruct (kill_process_raises _ init_world Hret) as [e He].
  destruct mf; run_execute.
  - destruct (run_monitor_eq me 10 init_world) as (tm & -> & Hops).
    run_execute. rewrite kill_process_world, He. run_execute.
    eexists _, _, _; split; [reflexivity|].
    ops_simpl. rewrite Hops, ?app_nil_r. reflexivity.
  - rewrite kill_process_world, He. run_execute.
    eexists _, _, _; split; [reflexivity|].
    ops_simpl. rewrite ?app_nil_r. reflexivity.
Qed.

(** ** Reading a trace through its shared operations *)

Lemma flag_writes_shared t : flag_writes (shared_ops t) = flag_writes t.
Proof.
  unfold flag_writes. induction t as [|ev t IH]; [reflexivity|].
  rewrite shared_ops_cons. destruct ev; cbn; rewrite ?IH; reflexivity.
Qed.

Lemma queue_puts_shared t : queue_puts (shared_ops t) = queue_puts t.
Proof.
  unfold queue_puts. induction t as [|ev t IH]; [reflexivity|].
  rewrite shared_ops_cons. destruct ev; cbn; rewrite ?IH; reflexivity.
Qed.

Lemma queue_gets_shared t : queue_gets (shared_ops t) = queue_gets t.
Proof.
  unfold queue_gets. induction t as [|ev t IH]; [reflexivity|].
  rewrite shared_ops_cons. destruct ev; cbn; rewrite ?IH; reflexivity.
Qed.

Lemma no_read_shared t :
  Forall (λ ev, is_read ev = false) (shared_ops t) →
  Forall (λ ev, is_read ev = false) t.
Proof.
  induction t as [|ev t IH]; [constructor|].
  rewrite shared_ops_cons.
  destruct ev; cbn; intros H; try (inversion H; subst); constructor; auto.
Qed.

(** A trace splits where its shared operations do. *)
Lemma shared_ops_split t a b :
  shared_ops t = a ++ EJoin :: b →
  ∃ pre post, t = pre ++ EJoin :: post
              ∧ shared_ops pre = a ∧ shared_ops post = b.
Proof.
  revert a. induction t as [|ev t IH]; intros a H.
  - destruct a; discriminate.
  - rewrite shared_ops_cons in H. destruct (is_shared_op ev) eqn:Hev.
    + destruct a as [|x a]; cbn in H.
      * injection H as -> <-. exists [], t. auto.
      * injection H as -> H. destruct (IH _ H) as (pre & post & -> & <- & <-).
        exists (x :: pre), post. rewrite shared_ops_cons, Hev. auto.
    + destruct (IH _ H) as (pre & post & -> & <- & <-).
      exists (ev :: pre), post. rewrite shared_ops_cons, Hev. auto.
Qed.

(** * The claims *)

Example artifact_path_ex :
  artifact_path ["exp"] 3 = ["exp"; "00003_KeyFrameTrajectory.csv"]
  ∧ log_file_path ["exp"] 3 = ["exp"; "system_output_00003.txt"].
Proof. vm_compute. auto. Qed.

Example clean_run_result :
  (execute clean_run "pixi run" 3 ["exp"] 60 init_world).1.1
  = Ok {| success := true; comments := ""; ram := PyNum 0; swap := PyNum 0;
          gpu := PyNum 0 |}.
Proof. vm_compute. reflexivity. Qed.

Example ram_hungry_run_result :
  (execute ram_hungry_run "pixi run" 3 ["exp"] 60 init_world).1.1
  = Ok {| success := false;
          comments := "RAM threshold exceeded: 15.5/16.0 GB (> 95%). Process killed." +:+ newline;
          ram := PyNum (to_gb (6 * GiB) - to_gb (5 * GiB)); swap := PyNum 0;
          gpu := PyNum 0 |}.
Proof. vm_compute. reflexivity. Qed.

Lemma timed_out_iff env :
  timed_out env = false ↔ communicate env ≠ CommTimeoutExpired.
Proof. unfold timed_out. destruct (communicate env); split; congruence. Qed.

Lemma execute_Ok_returns env command exp_it exp_folder timeout_seconds w r w' t :
  execute env command exp_it exp_folder timeout_seconds w = (Ok r, w', t) →
  execute_returns env = true
  ∧ r = expected_result env exp_it exp_folder timeout_seconds
  ∧ shared_ops t
    = before_join env ++ EJoin :: after_join env exp_it exp_folder timeout_seconds.
Proof.
  intros H. destruct (execute_returns env) eqn:E.
  - destruct (execute_returns_eq env command exp_it exp_folder
                timeout_seconds w E) as (w1 & t1 & H1 & Hops).
    rewrite H in H1. injection H1 as -> -> ->. auto.
  - destruct (execute_raises_eq env command exp_it exp_folder
                timeout_seconds w E) as (e & w1 & t1 & H1 & _).
    rewrite H in H1. discriminate.
Qed.

(** C1.  Whenever [execute] returns a result, its [success] is true exactly
    when the wait did not end by the timeout, the monitor met no RAM or
    swap breach, and the file [<exp_folder>/<exp_it:05d>_KeyFrameTrajectory.csv]
    exists; the exit code of the child changes nothing of the outcome. *)
Theorem execute_success_iff env command exp_it exp_folder timeout_seconds
    w r w' t :
  execute env command exp_it exp_folder timeout_seconds w = (Ok r, w', t) →
  (success r = true ↔
     communicate env ≠ CommTimeoutExpired
     ∧ ¬ breach_occurs (monitor env)
     ∧ fs_exists env (artifact_path exp_folder exp_it) = true)
  ∧ ∀ rc rc', communicate env = CommReturned rc →
      execute (with_communicate env (CommReturned rc')) command exp_it
        exp_folder timeout_seconds w = (Ok r, w', t).
Proof.
  intros H. split.
  - destruct (execute_Ok_returns _ _ _ _ _ _ _ _ _ H) as (_ & -> & _).
    cbn [success expected_result].
    rewrite !andb_true_iff, !negb_true_iff, timed_out_iff,
      breach_occurs_breached, not_true_iff_false. tauto.
  - intros rc rc' Hc. rewrite <- H.
    destruct env as [o p c tk me mf ex]. cbn in Hc. subst c. reflexivity.
Qed.

Lemma execute_success_iff_witness :
  ∃ r w' t,
    execute clean_run "pixi run" 3 ["exp"] 60 init_world = (Ok r, w', t)
    ∧ success r = true
    ∧ execute (with_communicate clean_run (CommReturned 1)) "pixi run" 3
        ["exp"] 60 init_world = (Ok r, w', t).
Proof.
  eexists _, _, _. split; [vm_compute; reflexivity|].
  pose proof (execute_success_iff clean_run "pixi run" 3 ["exp"] 60 init_world
                _ _ _ eq_refl) as [Hiff Hrc].
  split; [|exact (Hrc 0 1 eq_refl)].
  reflexivity.
Defined.

(** C5, as the code has it.  When [subprocess.Popen] itself raises,
    [execute] raises that error to its caller at once: the log file is
    closed, no thread is started, nothing is written to the shared objects
    and no result is built.  When [Popen] returns and the child ends by
    itself, whatever its exit code, [execute] raises nothing and returns a
    result, whose [success] is false if the trajectory file is absent:
    that is what a command the shell cannot find or run comes to, since
    the command is run with [shell=True]. *)
Theorem spawn_failure_propagates env command exp_it exp_folder timeout_seconds
    w :
  open_log env = Ok () →
  (∀ e, popen env = Raise e →
     execute env command exp_it exp_folder timeout_seconds w
     = (Raise e, init_world,
        [EOpen (log_file_path exp_folder exp_it);
         EPrintLogFile (log_file_path exp_folder exp_it);
         EPopen command; EClose]))
  ∧ (∀ pid rc, popen env = Ok pid → communicate env = CommReturned rc →
     ∃ r w' t,
       execute env command exp_it exp_folder timeout_seconds w = (Ok r, w', t)
       ∧ (fs_exists env (artifact_path exp_folder exp_it) = false →
          success r = false)).
Proof.
  intros Ho. split.
  - intros e Hp. destruct env as [o p c tk me mf ex]. cbn in Ho, Hp.
    subst o p. unfold execute, supervise, with_file, fresh. run_execute.
    reflexivity.
  - intros pid rc Hp Hc.
    assert (Hret : execute_returns env = true).
    { unfold execute_returns, timed_out. now rewrite Ho, Hp, Hc. }
    destruct (execute_returns_eq env command exp_it exp_folder
                timeout_seconds w Hret) as (w' & t & H & _).
    eexists _, w', t. split; [exact H|].
    intros Hex. cbn [success expected_result]. rewrite Hex.
    apply andb_false_r.
Qed.

Lemma spawn_failure_propagates_witness :
  execute unspawned_run "pixi run" 3 ["exp"] 60 init_world
  = (Raise PermissionError, init_world,
     [EOpen ["exp"; "system_output_00003.txt"];
      EPrintLogFile ["exp"; "system_output_00003.txt"];
      EPopen "pixi run"; EClose])
  ∧ ∃ r w' t,
      execute missing_executable_run "no_such_program" 3 ["exp"] 60 init_world
      = (Ok r, w', t)
      ∧ success r = false.
Proof.
  split.
  - exact (proj1 (spawn_failure_propagates unspawned_run "pixi run" 3 ["exp"]
                    60 init_world eq_refl) PermissionError eq_refl).
  - destruct (proj2 (spawn_failure_propagates missing_executable_run
                       "no_such_program" 3 ["exp"] 60 init_world eq_refl)
                4242 127 eq_refl eq_refl) as (r & w' & t & H & Hs).
    exists r, w', t. split; [exact H | exact (Hs eq_refl)].
Defined.

(** C5, the claim as stated fails.  The command names no executable: the
    spawn of the claim fails, yet [Popen] returns, since it starts the
    shell, and [execute] raises nothing: it returns a result, the failure
    folded into [success = false]. *)
Lemma missing_executable_is_folded :
  (execute missing_executable_run "no_such_program" 3 ["exp"] 60 init_world).1.1
  = Ok {| success := false; comments := ""; ram := PyNum 0; swap := PyNum 0;
          gpu := PyNum 0 |}.
Proof. vm_compute. reflexivity. Qed.

(** C8.  If the child ends by itself within the timeout, the monitor meets
    no breach and the trajectory file exists, [execute] returns a result
    with [success = true] and [comments = ""]. *)
Theorem execute_clean_run env command exp_it exp_folder timeout_seconds w
    pid rc :
  open_log env = Ok () →
  popen env = Ok pid →
  communicate env = CommReturned rc →
  ¬ breach_occurs (monitor env) →
  fs_exists env (artifact_path exp_folder exp_it) = true →
  ∃ r w' t,
    execute env command exp_it exp_folder timeout_seconds w = (Ok r, w', t)
    ∧ success r = true ∧ comments r = "".
Proof.
  intros Ho Hp Hc Hb Hex.
  assert (Ht : timed_out env = false) by (unfold timed_out; now rewrite Hc).
  assert (Hret : execute_returns env = true)
    by (unfold execute_returns; now rewrite Ho, Hp, Ht).
  destruct (execute_returns_eq env command exp_it exp_folder timeout_seconds
              w Hret) as (w' & t & H & _).
  exists (expected_result env exp_it exp_folder timeout_seconds), w', t.
  split; [exact H|].
  rewrite breach_occurs_breached, not_true_iff_false in Hb.
  cbn [success comments expected_result]. rewrite Ht, Hb, Hex.
  split; [reflexivity|].
  unfold diagnostics, breached in *.
  destruct (first_breach _ _); [discriminate | reflexivity].
Qed.

Lemma execute_clean_run_witness :
  ∃ r w' t,
    execute clean_run "pixi run" 3 ["exp"] 60 init_world = (Ok r, w', t)
    ∧ success r = true ∧ comments r = "".
Proof.
  apply (execute_clean_run clean_run "pixi run" 3 ["exp"] 60 init_world 4242 0);
    try reflexivity.
  rewrite breach_occurs_breached. vm_compute. discriminate.
Defined.

Lemma gpu_inc_max_no_handle b l p :
  gpu_inc_max (peaks_after false b l p) = gpu_inc_max p.
Proof.
  revert p. induction l as [|s l IH]; intros p; [reflexivity|].
  cbn [peaks_after foldl]. fold (peaks_after false b l (track false b s p)).
  now rewrite IH.
Qed.

(** C2, as the code has it.  When the monitor obtains no GPU handle,
    [execute] reports the number 0 for the GPU whenever the monitor runs to
    its end; it reports the string ['N/A'] only when the monitor thread was
    ended by an exception before it stored its statistics. *)
Theorem gpu_without_handle env command exp_it exp_folder timeout_seconds
    w r w' t :
  gpu_handle (monitor env) = false →
  execute env command exp_it exp_folder timeout_seconds w = (Ok r, w', t) →
  (monitor_completes (monitor env) → gpu r = PyNum 0)
  ∧ (¬ monitor_completes (monitor env) → gpu r = PyStr "N/A").
Proof.
  intros Hg H.
  destruct (execute_Ok_returns _ _ _ _ _ _ _ _ _ H) as (_ & -> & _).
  cbn [gpu expected_result]. unfold reported, final_peaks.
  rewrite Hg, gpu_inc_max_no_handle, monitor_completes_completes.
  destruct (completes (monitor env)); split; intros Hc;
    try reflexivity; try discriminate; now destruct Hc.
Qed.

Lemma gpu_without_handle_witness :
  ∃ r w' t,
    execute clean_run "pixi run" 3 ["exp"] 60 init_world = (Ok r, w', t)
    ∧ (monitor_completes (monitor clean_run) → gpu r = PyNum 0).
Proof.
  eexists _, _, _. split; [vm_compute; reflexivity|].
  exact (proj1 (gpu_without_handle clean_run "pixi run" 3 ["exp"] 60
                  init_world _ _ _ eq_refl eq_refl)).
Defined.

(** C2, the claim as stated fails: on a host without GPU the monitor
    obtains no handle, and the result carries the number 0, not the
    string ['N/A']. *)
Lemma gpu_zero_without_handle :
  gpu_handle (monitor clean_run) = false
  ∧ ∃ r w' t,
      execute clean_run "pixi run" 3 ["exp"] 60 init_world = (Ok r, w', t)
      ∧ gpu r = PyNum 0 ∧ gpu r ≠ PyStr "N/A".
Proof.
  split; [reflexivity|].
  eexists _, _, _. split; [vm_compute; reflexivity|].
  split; [reflexivity | discriminate].
Qed.

(** ** Prefixes of strings *)

Lemma prefix_append (a b : string) : String.prefix a (a +:+ b) = true.
Proof.
  induction a as [|x a IH]; [now destruct b|].
  change (String.prefix (String x a) (String x (a +:+ b)) = true).
  cbn. destruct (Ascii.ascii_dec x x); [exact IH | congruence].
Qed.

(** ** The peaks *)

Lemma is_maximum_step x a d l :
  is_maximum x (py_max a d :: l) → is_maximum x (a :: d :: l).
Proof.
  intros [(y & Hy & Hxy) Hub]. split.
  - apply elem_of_cons in Hy as [->|Hy].
    + destruct (py_max_cases a d) as [E|E]; rewrite E in Hxy.
      * exists a. split; [left | exact Hxy].
      * exists d. split; [right; left | exact Hxy].
    + exists y. split; [do 2 right; exact Hy | exact Hxy].
  - intros z Hz.
    assert (Hm : (py_max a d <= x)%Q) by (apply Hub; left).
    apply elem_of_cons in Hz as [->|Hz].
    { eapply Qle_trans; [apply py_max_l | exact Hm]. }
    apply elem_of_cons in Hz as [->|Hz].
    { eapply Qle_trans; [apply py_max_r | exact Hm]. }
    apply Hub. right. exact Hz.
Qed.

Lemma peaks_after_maximum g b l p :
  is_maximum (ram_inc_max (peaks_after g b l p))
    (ram_inc_max p :: ram_increments b l)
  ∧ is_maximum (swap_inc_max (peaks_after g b l p))
      (swap_inc_max p :: swap_increments b l).
Proof.
  revert p. induction l as [|s l IH]; intros p.
  - cbn. split; (split; [eexists; split; [left | reflexivity] |]);
      intros y ->%list_elem_of_singleton; apply Qle_refl.
  - cbn [peaks_after foldl]. fold (peaks_after g b l (track g b s p)).
    destruct (IH (track g b s p)) as [IHr IHs].
    split; apply is_maximum_step; assumption.
Qed.

Lemma is_maximum_nonneg x l : is_maximum x (0%Q :: l) → (0 <= x)%Q.
Proof. intros [_ Hub]. apply Hub. left. Qed.

(** C6, as the code has it.  When [execute] returns and the monitor ran to
    its end, [ram] and [swap] are numbers, each at least 0 and each the
    greatest of 0 and the increments (usage read minus usage at the start
    of the monitor) of the samples taken on the passes without breach. *)
Theorem peaks_are_clamped_increments env command exp_it exp_folder
    timeout_seconds w r w' t :
  execute env command exp_it exp_folder timeout_seconds w = (Ok r, w', t) →
  monitor_completes (monitor env) →
  ∃ pr ps,
    ram r = PyNum pr ∧ swap r = PyNum ps
    ∧ (0 <= pr)%Q ∧ (0 <= ps)%Q
    ∧ is_maximum pr
        (0%Q :: ram_increments (snapshots (monitor env))
                (sampled (snapshots (monitor env)) (ticks (monitor env))))
    ∧ is_maximum ps
        (0%Q :: swap_increments (snapshots (monitor env))
                (sampled (snapshots (monitor env)) (ticks (monitor env))))
    ∧ Forall (λ x, breach (snapshots (monitor env)) x = false)
        (sampled (snapshots (monitor env)) (ticks (monitor env))).
Proof.
  intros H Hc%monitor_completes_completes.
  destruct (execute_Ok_returns _ _ _ _ _ _ _ _ _ H) as (_ & -> & _).
  cbn [ram swap expected_result]. unfold reported. rewrite Hc.
  destruct (peaks_after_maximum (gpu_handle (monitor env))
              (snapshots (monitor env))
              (sampled (snapshots (monitor env)) (ticks (monitor env)))
              peaks_0) as [Hr Hs].
  eexists _, _. split; [reflexivity|]. split; [reflexivity|].
  split; [exact (is_maximum_nonneg _ _ Hr)|].
  split; [exact (is_maximum_nonneg _ _ Hs)|].
  split; [exact Hr|]. split; [exact Hs|]. apply sampled_no_breach.
Qed.

Lemma peaks_are_clamped_increments_witness :
  ∃ r w' t,
    execute clean_run "pixi run" 3 ["exp"] 60 init_world = (Ok r, w', t)
    ∧ ∃ pr ps,
        ram r = PyNum pr ∧ swap r = PyNum ps
        ∧ (0 <= pr)%Q ∧ (0 <= ps)%Q
        ∧ is_maximum pr
            (0%Q :: ram_increments (snapshots quiet_monitor)
                      (sampled (snapshots quiet_monitor) (ticks quiet_monitor)))
        ∧ is_maximum ps
            (0%Q :: swap_increments (snapshots quiet_monitor)
                      (sampled (snapshots quiet_monitor) (ticks quiet_monitor)))
        ∧ Forall (λ x, breach (snapshots quiet_monitor) x = false)
            (sampled (snapshots quiet_monitor) (ticks quiet_monitor)).
Proof.
  eexists _, _, _. split; [vm_compute; reflexivity|].
  eapply (peaks_are_clamped_increments clean_run "pixi run" 3 ["exp"] 60
            init_world).
  - vm_compute. reflexivity.
  - apply monitor_completes_completes. vm_compute. reflexivity.
Defined.

(** C6, the claim as stated fails: with 5 GiB in use at the start and 3 GiB
    at the only sample, the greatest increment observed is -2 GiB, and the
    peak reported is 0. *)
Lemma peak_is_not_greatest_increment :
  ∃ r w' t,
    execute clean_run "pixi run" 3 ["exp"] 60 init_world = (Ok r, w', t)
    ∧ monitor_completes (monitor clean_run)
    ∧ ram r = PyNum 0
    ∧ ram_increments (snapshots quiet_monitor)
        (sampled (snapshots quiet_monitor) (ticks quiet_monitor))
      = [(to_gb (3 * GiB) - to_gb (5 * GiB))%Q]
    ∧ (to_gb (3 * GiB) - to_gb (5 * GiB) == -2)%Q
    ∧ ¬ is_maximum 0
          (ram_increments (snapshots quiet_monitor)
             (sampled (snapshots quiet_monitor) (ticks quiet_monitor))).
Proof.
  eexists _, _, _. split; [vm_compute; reflexivity|].
  split; [apply monitor_completes_completes; vm_compute; reflexivity|].
  split; [reflexivity|].
  split; [reflexivity|].
  split; [vm_compute; reflexivity|].
  intros [(y & Hy & H0) _].
  apply list_elem_of_singleton in Hy. subst y. vm_compute in H0. discriminate.
Qed.

Lemma snapshots_with_ticks me ts :
  snapshots (with_ticks me ts) = snapshots me
  ∧ gpu_handle (with_ticks me ts) = gpu_handle me.
Proof. split; reflexivity. Qed.

(** C10.  When the loop meets a breaching sample after passes without
    breach, the maxima it stores are those of the earlier passes: the
    monitor stores what it would store had the process ended just before
    the breaching pass, whatever the breaching sample and the later ones
    are; if [kill_process] raises it stores nothing. *)
Theorem breach_sample_not_counted me i w pre s rest :
  ticks me = (TickSample <$> pre) ++ TickSample s :: rest →
  Forall (λ x, breach (snapshots me) x = false) pre →
  breach (snapshots me) s = true →
  ∃ r w1 t1 w2 t2,
    monitor_memory me i w = (r, w1, t1)
    ∧ monitor_memory (with_ticks me (TickSample <$> pre)) i w = (Ok (), w2, t2)
    ∧ memory_stats w2 !! "ram"
      = Some (PyNum (ram_inc_max
                       (peaks_after (gpu_handle me) (snapshots me) pre peaks_0)))
    ∧ memory_stats w2 !! "swap"
      = Some (PyNum (swap_inc_max
                       (peaks_after (gpu_handle me) (snapshots me) pre peaks_0)))
    ∧ (r = Ok () → memory_stats w1 = memory_stats w2)
    ∧ (r ≠ Ok () → memory_stats w1 = memory_stats w).
Proof.
  intros Hts Hpre Hs.
  destruct (monitor_memory_eq me i w) as (r & t1 & H1 & _ & Hr).
  destruct (monitor_memory_eq (with_ticks me (TickSample <$> pre)) i w)
    as (r2 & t2 & H2 & _ & Hr2).
  destruct (first_breach_split (snapshots me) pre s rest Hpre Hs) as [_ Hsam].
  destruct (sampled_quiet (snapshots me) pre Hpre) as [Hnone Hsam2].
  assert (Hc2 : completes (with_ticks me (TickSample <$> pre)) = true).
  { unfold completes, breached.
    destruct (snapshots_with_ticks me (TickSample <$> pre)) as [-> _].
    cbn [ticks with_ticks]. now rewrite Hnone. }
  assert (Hp : final_peaks (with_ticks me (TickSample <$> pre))
               = final_peaks me).
  { unfold final_peaks.
    destruct (snapshots_with_ticks me (TickSample <$> pre)) as [-> ->].
    cbn [ticks with_ticks]. now rewrite Hts, Hsam, Hsam2. }
  apply Hr2 in Hc2 as Hok. subst r2.
  eexists r, _, t1, _, t2. split; [exact H1|]. split; [exact H2|].
  cbn [memory_stats world_after_monitor]. rewrite Hc2, Hp.
  assert (Hfp : final_peaks me
                = peaks_after (gpu_handle me) (snapshots me) pre peaks_0)
    by (unfold final_peaks; now rewrite Hts, Hsam).
  destruct (store_peaks_lookup (final_peaks me) (memory_stats w))
    as (Hram & Hswap & _).
  rewrite <- Hfp. split; [exact Hram|]. split; [exact Hswap|].
  destruct (completes me) eqn:Hc; split; intros Hres; try reflexivity.
  - destruct Hres. now apply Hr.
  - apply Hr in Hres. discriminate.
Qed.

Lemma breach_sample_not_counted_witness :
  ∃ r w1 t1 w2 t2,
    monitor_memory ram_hungry_monitor 10 init_world = (r, w1, t1)
    ∧ monitor_memory
        (with_ticks ram_hungry_monitor
           (TickSample <$> [mkSample (6 * GiB) 0 None])) 10 init_world
      = (Ok (), w2, t2)
    ∧ memory_stats w2 !! "ram"
      = Some (PyNum (ram_inc_max
                       (peaks_after (gpu_handle ram_hungry_monitor)
                          (snapshots ram_hungry_monitor)
                          [mkSample (6 * GiB) 0 None] peaks_0)))
    ∧ memory_stats w2 !! "swap"
      = Some (PyNum (swap_inc_max
                       (peaks_after (gpu_handle ram_hungry_monitor)
                          (snapshots ram_hungry_monitor)
                          [mkSample (6 * GiB) 0 None] peaks_0)))
    ∧ (r = Ok () → memory_stats w1 = memory_stats w2)
    ∧ (r ≠ Ok () → memory_stats w1 = memory_stats init_world).
Proof.
  apply (breach_sample_not_counted ram_hungry_monitor 10 init_world
           [mkSample (6 * GiB) 0 None] ram_high
           [TickSample (mkSample (7 * GiB) 0 None)]).
  - reflexivity.
  - repeat constructor.
  - vm_compute. reflexivity.
Defined.

(** ** The order of the operations on the shared objects *)

Lemma monitor_ops_cases me :
  (breached me = false ∧ diagnostics me = []
   ∧ monitor_ops me
     = if completes me
       then [EStatsSet "ram" (PyNum (ram_inc_max (final_peaks me)));
             EStatsSet "swap" (PyNum (swap_inc_max (final_peaks me)));
             EStatsSet "gpu" (PyNum (gpu_inc_max (final_peaks me)))]
       else [])
  ∨ (∃ d, breached me = true ∧ diagnostics me = [d]
          ∧ monitor_ops me
            = EFlagWrite false :: EQueuePut d
              :: if completes me
                 then [EStatsSet "ram" (PyNum (ram_inc_max (final_peaks me)));
                       EStatsSet "swap" (PyNum (swap_inc_max (final_peaks me)));
                       EStatsSet "gpu" (PyNum (gpu_inc_max (final_peaks me)))]
                 else []).
Proof.
  unfold monitor_ops, diagnostics, breached.
  destruct (first_breach _ _) as [s|]; [right | left]; eauto.
Qed.

Lemma before_join_facts env :
  Forall (λ ev, is_read ev = false) (before_join env)
  ∧ queue_puts (before_join env) = diagnostics (monitor env)
  ∧ flag_writes (before_join env)
    = (if breached (monitor env) then [false] else [])
      ++ (if timed_out env then [false] else []).
Proof.
  unfold before_join, timeout_ops.
  destruct (monitor_ops_cases (monitor env))
    as [(-> & -> & ->)|(d & -> & -> & ->)];
    destruct (monitor_first env), (timed_out env), (completes (monitor env));
    cbn; repeat split; repeat constructor.
Qed.

Lemma after_join_facts env exp_it exp_folder timeout_seconds :
  queue_gets (after_join env exp_it exp_folder timeout_seconds)
  = diagnostics (monitor env)
  ∧ queue_puts (after_join env exp_it exp_folder timeout_seconds) = []
  ∧ flag_writes (after_join env exp_it exp_folder timeout_seconds)
    = if fs_exists env (artifact_path exp_folder exp_it) then [] else [false].
Proof.
  unfold after_join.
  destruct (monitor_ops_cases (monitor env))
    as [(_ & -> & _)|(d & _ & -> & _)];
    destruct (fs_exists env (artifact_path exp_folder exp_it));
    cbn; auto.
Qed.

Lemma shared_ops_elem ev t : ev ∈ shared_ops t → ev ∈ t.
Proof.
  rewrite !list_elem_of_In. unfold shared_ops.
  rewrite List.filter_In. tauto.
Qed.

Lemma flag_writes_app t1 t2 :
  flag_writes (t1 ++ t2) = flag_writes t1 ++ flag_writes t2.
Proof. apply omap_app. Qed.

(** C7.  In a call of [execute] that returns, the trace has one join of the
    monitor thread before which nothing is taken from the queue and neither
    the flag nor the statistics are read; the queue is drained after it, in
    the order of the puts, each diagnostic followed by a newline, and the
    flag and the three statistics are read after it. *)
Theorem reads_follow_join env command exp_it exp_folder timeout_seconds
    w r w' t :
  execute env command exp_it exp_folder timeout_seconds w = (Ok r, w', t) →
  ∃ pre post,
    t = pre ++ EJoin :: post
    ∧ Forall (λ ev, is_read ev = false) pre
    ∧ queue_puts post = []
    ∧ queue_gets post = queue_puts pre
    ∧ comments r
      = (if timed_out env
         then timeout_msg timeout_seconds +:+ ". Process killed."
         else "") +:+ lines (queue_puts pre)
    ∧ EFlagRead (success r) ∈ post
    ∧ EStatsGet "ram" ∈ post ∧ EStatsGet "swap" ∈ post
    ∧ EStatsGet "gpu" ∈ post.
Proof.
  intros H.
  destruct (execute_Ok_returns _ _ _ _ _ _ _ _ _ H) as (_ & -> & Hops).
  destruct (shared_ops_split _ _ _ Hops) as (pre & post & -> & Hpre & Hpost).
  destruct (before_join_facts env) as (Hnr & Hputs & _).
  destruct (after_join_facts env exp_it exp_folder timeout_seconds)
    as (Hgets & Hputs' & _).
  exists pre, post. split; [reflexivity|].
  split; [apply no_read_shared; now rewrite Hpre|].
  split; [now rewrite <- queue_puts_shared, Hpost|].
  split; [now rewrite <- queue_gets_shared, <- (queue_puts_shared pre),
            Hpost, Hpre, Hgets, Hputs|].
  split; [now rewrite <- (queue_puts_shared pre), Hpre, Hputs|].
  repeat split; apply shared_ops_elem; rewrite Hpost; unfold after_join;
    rewrite !elem_of_app; right; right; cbn [success expected_result];
    repeat (first [left; reflexivity | right]).
Qed.

Lemma reads_follow_join_witness :
  ∃ r w' t,
    execute ram_hungry_run "pixi run" 3 ["exp"] 60 init_world = (Ok r, w', t)
    ∧ ∃ pre post,
        t = pre ++ EJoin :: post
        ∧ Forall (λ ev, is_read ev = false) pre
        ∧ queue_puts post = []
        ∧ queue_gets post = queue_puts pre
        ∧ comments r
          = (if timed_out ram_hungry_run
             then timeout_msg 60 +:+ ". Process killed."
             else "") +:+ lines (queue_puts pre)
        ∧ EFlagRead (success r) ∈ post
        ∧ EStatsGet "ram" ∈ post ∧ EStatsGet "swap" ∈ post
        ∧ EStatsGet "gpu" ∈ post.
Proof.
  eexists _, _, _. split; [vm_compute; reflexivity|].
  eapply (reads_follow_join ram_hungry_run "pixi run" 3 ["exp"] 60 init_world).
  vm_compute. reflexivity.
Defined.

(** ** The success flag *)

Lemma raise_ops_writes env : Forall (λ b, b = false) (flag_writes (raise_ops env)).
Proof.
  unfold raise_ops.
  destruct (open_log env), (popen env); try constructor.
  destruct (monitor_ops_cases (monitor env))
    as [(_ & _ & ->)|(d & _ & _ & ->)];
    destruct (monitor_first env), (completes (monitor env));
    cbn; repeat constructor.
Qed.

(** C9.  The flag starts at true; every write to it during a call of
    [execute], by the monitor or by the caller, writes false; the monitor
    and the wait of the caller leave a false flag false; and the result of
    a call that returns is a failure exactly when some write took place. *)
Theorem success_flag_monotone env command exp_it exp_folder timeout_seconds w :
  (∃ w0, fresh w = (Ok (), w0, []) ∧ success_flag w0 = true)
  ∧ (∀ r w' t,
       execute env command exp_it exp_folder timeout_seconds w = (r, w', t) →
       Forall (λ b, b = false) (flag_writes t))
  ∧ (∀ me i w0 r w' t,
       monitor_memory me i w0 = (r, w', t) →
       success_flag w0 = false → success_flag w' = false)
  ∧ (∀ w0 r w' t,
       wait_child env timeout_seconds w0 = (r, w', t) →
       success_flag w0 = false → success_flag w' = false)
  ∧ (∀ r w' t,
       execute env command exp_it exp_folder timeout_seconds w = (Ok r, w', t) →
       (success r = false ↔ flag_writes t ≠ [])).
Proof.
  split; [exists init_world; split; reflexivity|].
  split; [|split; [|split]].
  - intros r w' t H. rewrite <- flag_writes_shared.
    destruct (execute_returns env) eqn:E.
    + destruct (execute_returns_eq env command exp_it exp_folder
                  timeout_seconds w E) as (w1 & t1 & H1 & Hops).
      rewrite H in H1. injection H1 as _ _ <-. rewrite Hops.
      destruct (before_join_facts env) as (_ & _ & Hb).
      destruct (after_join_facts env exp_it exp_folder timeout_seconds)
        as (_ & _ & Ha).
      rewrite flag_writes_app, Hb.
      change (flag_writes (EJoin :: ?l)) with (flag_writes l). rewrite Ha.
      destruct (breached (monitor env)), (timed_out env),
        (fs_exists env (artifact_path exp_folder exp_it));
        cbn; repeat constructor.
    + destruct (execute_raises_eq env command exp_it exp_folder
                  timeout_seconds w E) as (e & w1 & t1 & H1 & Hops).
      rewrite H in H1. injection H1 as _ _ <-. rewrite Hops.
      apply raise_ops_writes.
  - intros me i w0 r w' t H Hf.
    destruct (monitor_memory_eq me i w0) as (r1 & t1 & H1 & _).
    rewrite H in H1. injection H1 as _ -> _.
    cbn [success_flag world_after_monitor]. now rewrite Hf.
  - intros w0 r w' t. unfold wait_child.
    destruct (communicate env); run_execute.
    + intros [= _ <- _]. auto.
    + rewrite kill_process_world.
      destruct ((kill_process (timeout_kill env) init_world).1.1);
        run_execute; intros [= _ <- _]; auto.
  - intros r w' t H.
    destruct (execute_Ok_returns _ _ _ _ _ _ _ _ _ H) as (_ & -> & Hops).
    rewrite <- flag_writes_shared, Hops.
    destruct (before_join_facts env) as (_ & _ & Hb).
    destruct (after_join_facts env exp_it exp_folder timeout_seconds)
      as (_ & _ & Ha).
    rewrite flag_writes_app, Hb.
    change (flag_writes (EJoin :: ?l)) with (flag_writes l). rewrite Ha.
    cbn [success expected_result].
    destruct (breached (monitor env)), (timed_out env),
      (fs_exists env (artifact_path exp_folder exp_it));
      cbn; split; congruence.
Qed.

Lemma success_flag_monotone_witness :
  ∃ r w' t,
    execute ram_hungry_run "pixi run" 3 ["exp"] 60 init_world = (Ok r, w', t)
    ∧ Forall (λ b, b = false) (flag_writes t)
    ∧ (success r = false ↔ flag_writes t ≠ []).
Proof.
  eexists _, _, _. split; [vm_compute; reflexivity|].
  destruct (success_flag_monotone ram_hungry_run "pixi run" 3 ["exp"] 60
              init_world) as (_ & Hw & _ & _ & Hs).
  split; [apply (Hw _ _ _ eq_refl) | apply (Hs _ _ _ eq_refl)].
Defined.

(** ** The thresholds, on every pass of the monitor *)

Arguments monitor_trace : simpl never.
Arguments kill_events : simpl never.
Arguments kill_result : simpl never.

Lemma kill_process_exact k w :
  kill_process k w = (kill_result k, w, kill_events k).
Proof. apply kill_process_world. Qed.

Lemma kill_result_ok k : kill_result k = Ok () ↔ lookups_ok k = true.
Proof.
  unfold kill_result. split.
  - destruct (lookups_ok k) eqn:E; [reflexivity|].
    destruct (kill_process_raises k init_world E) as [e ->]. discriminate.
  - apply kill_process_ok.
Qed.

Lemma monitor_memory_exact me i w :
  monitor_memory me i w
  = (monitor_result me, world_after_monitor me w, monitor_trace me i).
Proof.
  unfold monitor_memory, world_after_monitor, monitor_result, monitor_trace,
    monitor_tail, breach_events, completes, breached, diagnostics,
    final_peaks, store_peaks, kill_result, kill_events.
  unfold mbind at 1, M_bind at 1. cbn [emit].
  unfold mbind at 1, M_bind at 1. rewrite monitor_loop_eq.
  destruct (first_breach (snapshots me) (ticks me)) as [s|] eqn:E.
  - rewrite (monitor_step_breach _ _ _ _ _ _ _ (first_breach_breach _ _ _ E)).
    destruct (lookups_ok (breach_kill me)) eqn:Hk.
    + rewrite (kill_process_ok _ init_world Hk).
      destruct (gpu_handle me); unfold_monad; cbn;
        rewrite ?andb_false_r, ?app_nil_r, <- ?app_assoc; reflexivity.
    + destruct (kill_process_raises _ init_world Hk) as [e ->].
      cbn. rewrite ?andb_false_r, ?app_nil_r. reflexivity.
  - destruct (gpu_handle me); unfold_monad; cbn;
      rewrite ?andb_true_r, ?app_nil_r; reflexivity.
Qed.

Lemma sleeps_app i l1 l2 : sleeps i (l1 ++ l2) = sleeps i l1 ++ sleeps i l2.
Proof. apply fmap_app. Qed.

Lemma sampled_app_quiet b pre ts :
  Forall (λ x, breach b x = false) pre →
  sampled b ((TickSample <$> pre) ++ ts) = pre ++ sampled b ts.
Proof.
  induction 1 as [|x pre Hx _ IH]; cbn; [reflexivity|].
  now rewrite Hx, IH.
Qed.

(** C3.  On every pass of the sampling loop of [monitor_memory], the
    earlier passes [pre] having met no breach, the sample [s] is tested
    for RAM first.  If the test of RAM ([ram_perc > MAX_RAM_PERC], with
    [MAX_RAM_PERC = 0.95]) is true, whatever the swap, the monitor logs at
    error level and queues the diagnostic that begins with
    "RAM threshold exceeded", sets the flag to false, calls [kill_process]
    and samples no more: it has slept once per earlier pass, the later
    ticks are not read, and what remains are its last statements, reached
    if [kill_process] returns.  If the test of RAM is false and the one of
    swap ([swap_perc > MAX_SWAP_PERC], with [MAX_SWAP_PERC = 0.80]) is
    true, it does the same with the diagnostic that begins with
    "Swap threshold exceeded".  If both tests are false the pass does none
    of this: it ends with the sleep of the interval and the loop goes
    on.  The two tests are those of the loop, on the ratios it
    computes. *)
Theorem monitor_thresholds me i w pre s rest :
  ticks me = (TickSample <$> pre) ++ TickSample s :: rest →
  Forall (λ x, breach (snapshots me) x = false) pre →
  let b := snapshots me in
  let k := breach_kill me in
  let p := peaks_after (gpu_handle me) b pre peaks_0 in
  let stopped (msg : string) :=
    monitor_memory me i w
    = (kill_result k,
       {| success_flag := false;
          comment_queue := comment_queue w ++ [msg +:+ ". Process killed."];
          memory_stats := if lookups_ok k
                          then store_peaks p (memory_stats w)
                          else memory_stats w |},
       ENvmlInit
       :: sleeps i pre
       ++ [EPrintMsg msg LvlError; EFlagWrite false;
           EQueuePut (msg +:+ ". Process killed.")]
       ++ kill_events k
       ++ (if lookups_ok k
           then (if gpu_handle me then [ENvmlShutdown] else [])
                ++ [EStatsSet "ram" (PyNum (ram_inc_max p));
                    EStatsSet "swap" (PyNum (swap_inc_max p));
                    EStatsSet "gpu" (PyNum (gpu_inc_max p))]
           else [])) in
  String.prefix "RAM threshold exceeded" (ram_msg b s) = true
  ∧ String.prefix "Swap threshold exceeded" (swap_msg b s) = true
  ∧ (ram_breach b s = true → stopped (ram_msg b s))
  ∧ (ram_breach b s = false → swap_breach b s = true →
     stopped (swap_msg b s))
  ∧ (ram_breach b s = false → swap_breach b s = false →
     ∃ t, (monitor_memory me i w).2
          = ENvmlInit :: sleeps i pre ++ ESleep i :: t).
Proof.
  intros Hts Hpre b k p stopped.
  split; [apply (prefix_append "RAM threshold exceeded")|].
  split; [apply (prefix_append "Swap threshold exceeded")|].
  assert (Hstop : breach b s = true →
                  stopped (if ram_breach b s then ram_msg b s
                           else swap_msg b s)).
  { intros Hs. unfold stopped. rewrite monitor_memory_exact.
    destruct (first_breach_split b pre s rest Hpre Hs) as [Hfb Hsam].
    unfold monitor_result, world_after_monitor, monitor_trace, monitor_tail,
      breach_events, completes, breached, diagnostics, diagnostic,
      final_peaks.
    fold b k. rewrite Hts, Hfb, Hsam. fold p.
    cbn [negb orb]. rewrite andb_false_r.
    destruct (lookups_ok k); rewrite <- ?app_assoc; reflexivity. }
  split; [|split].
  - intros Hram. unfold breach in Hstop. rewrite Hram in Hstop.
    exact (Hstop eq_refl).
  - intros Hram Hswap. unfold breach in Hstop. rewrite Hram, Hswap in Hstop.
    exact (Hstop eq_refl).
  - intros Hram Hswap. rewrite monitor_memory_exact. cbn [snd].
    unfold monitor_trace. fold b. rewrite Hts.
    rewrite (sampled_app_quiet b pre _ Hpre). cbn [sampled].
    unfold breach. rewrite Hram, Hswap. cbn [orb].
    rewrite sleeps_app. cbn [sleeps fmap list_fmap].
    rewrite <- app_assoc. cbn [app]. eexists. reflexivity.
Qed.

Lemma monitor_thresholds_witness :
  (monitor_memory greedy_monitor 10 init_world).1.2
  = {| success_flag := false;
       comment_queue :=
         ["RAM threshold exceeded: 15.5/16.0 GB (> 95%). Process killed."];
       memory_stats :=
         store_peaks (peaks_after false (snapshots greedy_monitor) [both_low]
                        peaks_0) ∅ |}
  ∧ (monitor_memory swap_hungry_monitor 10 init_world).1.2
    = {| success_flag := false;
         comment_queue :=
           ["Swap threshold exceeded: 7.0/8.0 GB (> 80%). Process killed."];
         memory_stats :=
           store_peaks (peaks_after false (snapshots swap_hungry_monitor)
                          [both_low] peaks_0) ∅ |}
  ∧ ∃ t, (monitor_memory quiet_monitor 10 init_world).2
         = ENvmlInit :: sleeps 10 [] ++ ESleep 10 :: t.
Proof.
  destruct (monitor_thresholds greedy_monitor 10 init_world [both_low]
              both_high [TickSample both_low] eq_refl)
    as (_ & _ & H1 & _ & _); [repeat constructor|].
  destruct (monitor_thresholds swap_hungry_monitor 10 init_world [both_low]
              swap_high [TickSample both_low] eq_refl)
    as (_ & _ & _ & H2 & _); [repeat constructor|].
  destruct (monitor_thresholds quiet_monitor 10 init_world []
              (mkSample (3 * GiB) 0 None) [] eq_refl)
    as (_ & _ & _ & _ & H3); [constructor|].
  split; [|split].
  - rewrite (H1 eq_refl). vm_compute. reflexivity.
  - rewrite (H2 eq_refl eq_refl). vm_compute. reflexivity.
  - exact (H3 eq_refl eq_refl).
Defined.


(** * Further properties of the supervisor *)

(** ** The exact events of the two threads *)

Lemma run_monitor_exact me i w :
  run_thread (monitor_memory me i) w
  = (Ok (), world_after_monitor me w, monitor_trace me i).
Proof. unfold run_thread. now rewrite monitor_memory_exact. Qed.

Ltac run_exact :=
  unfold_monad;
  cbn -[run_thread monitor_memory kill_process drain monitor_trace
        kill_events kill_result].

Lemma kill_result_cases k :
  (lookups_ok k = true ∧ kill_result k = Ok ())
  ∨ (lookups_ok k = false ∧ ∃ e, kill_result k = Raise e).
Proof.
  destruct (lookups_ok k) eqn:E; [left | right]; split; try reflexivity.
  - now apply kill_result_ok.
  - apply (kill_process_raises k init_world E).
Qed.

Lemma execute_exact env command exp_it exp_folder timeout_seconds w :
  ∃ w',
    execute env command exp_it exp_folder timeout_seconds w
    = (execute_result env exp_it exp_folder timeout_seconds, w',
       execute_trace env command exp_it exp_folder timeout_seconds).
Proof.
  unfold execute, supervise, wait_child, with_file, fresh, drain_queue,
    execute_result, execute_trace, supervise_trace, wait_events,
    execute_returns, expected_result, timed_out.
  destruct env as [[[]|eo] [pid|ep] comm tk me mf ex];
    cbn [open_log popen communicate timeout_kill monitor monitor_first
         fs_exists];
    run_exact; try (eexists; reflexivity).
  destruct (reported_stats me) as (Hr & Hs & Hg). cbn zeta in Hr, Hs, Hg.
  destruct mf, comm as [rc|]; run_exact;
    rewrite ?run_monitor_exact; run_exact;
    rewrite ?kill_process_exact;
    try (destruct (kill_result_cases tk) as [[-> ->]|[-> [e ->]]]);
    run_exact; rewrite ?run_monitor_exact; run_exact; rewrite ?drain_eq;
    try (destruct (ex (artifact_path exp_folder exp_it)));
    run_exact; rewrite ?Hr, ?Hs, ?Hg, ?andb_true_r, ?andb_false_r, ?app_nil_r;
    eexists; f_equal; repeat rewrite <- app_assoc; cbn [app];
    repeat rewrite <- app_assoc; reflexivity.
Qed.


Lemma kill_events_eq k :
  kill_events k
  = EGetpgid
    :: match getpgid_term k with
       | Raise _ => []
       | Ok pg =>
           EKillpg pg SIGTERM
           :: match killpg_term k with
              | Raise _ => []
              | Ok _ =>
                  EWait 5
                  :: match wait_5 k with
                     | WaitExited => [EPrintMsg "Process killed." LvlError]
                     | WaitTimeoutExpired =>
                         EGetpgid
                         :: match getpgid_kill k with
                            | Raise _ => []
                            | Ok pg' =>
                                EKillpg pg' SIGKILL
                                :: match killpg_kill k with
                                   | Raise _ => []
                                   | Ok _ =>
                                       [EPrintMsg "Process killed." LvlError]
                                   end
                            end
                     end
              end
       end.
Proof.
  destruct k as [[g1|e1] [[]|e2] [|] [g2|e3] [[]|e4]]; reflexivity.
Qed.

Lemma kill_events_kind k :
  Forall (λ ev, is_kill_event ev = true) (kill_events k).
Proof.
  rewrite kill_events_eq.
  destruct k as [[g1|e1] [[]|e2] [|] [g2|e3] [[]|e4]]; cbn;
    repeat constructor.
Qed.

Lemma monitor_trace_kind me i :
  Forall (λ ev, is_monitor_event ev = true) (monitor_trace me i).
Proof.
  unfold monitor_trace, breach_events, monitor_tail.
  constructor; [reflexivity|].
  repeat apply Forall_app_2.
  - unfold sleeps. apply Forall_fmap, Forall_true. reflexivity.
  - destruct (first_breach _ _); [|constructor].
    apply Forall_app_2; [repeat constructor|].
    eapply Forall_impl; [apply kill_events_kind|].
    intros ev H. unfold is_monitor_event. now destruct ev.
  - destruct (completes me); [|constructor].
    destruct (gpu_handle me); repeat constructor.
Qed.

(** Counting and projecting along a trace. *)
Lemma count_events_app f t1 t2 :
  count_events f (t1 ++ t2) = (count_events f t1 + count_events f t2)%nat.
Proof. unfold count_events. now rewrite List.filter_app, length_app. Qed.

Lemma count_events_cons f ev t :
  count_events f (ev :: t)
  = ((if f ev then 1 else 0) + count_events f t)%nat.
Proof. unfold count_events. cbn. now destruct (f ev). Qed.

Ltac count_simpl :=
  repeat (rewrite count_events_cons || rewrite count_events_app).

Lemma count_events_none f t :
  Forall (λ ev, f ev = false) t → count_events f t = 0%nat.
Proof.
  induction 1 as [|ev t Hev _ IH]; [reflexivity|].
  now rewrite count_events_cons, Hev, IH.
Qed.

Lemma count_events_monitor f me i :
  (∀ ev, is_monitor_event ev = true → f ev = false) →
  count_events f (monitor_trace me i) = 0%nat.
Proof.
  intros Hf. apply count_events_none.
  eapply Forall_impl; [apply monitor_trace_kind | exact Hf].
Qed.

Lemma count_events_kill f k :
  (∀ ev, is_kill_event ev = true → f ev = false) →
  count_events f (kill_events k) = 0%nat.
Proof.
  intros Hf. apply count_events_none.
  eapply Forall_impl; [apply kill_events_kind | exact Hf].
Qed.

Lemma queue_puts_app t1 t2 :
  queue_puts (t1 ++ t2) = queue_puts t1 ++ queue_puts t2.
Proof. apply omap_app. Qed.

Lemma signals_app t1 t2 : signals (t1 ++ t2) = signals t1 ++ signals t2.
Proof. apply omap_app. Qed.

Lemma signals_sleeps i l : signals (sleeps i l) = [].
Proof. induction l; [reflexivity | assumption]. Qed.

Lemma signals_gets q : signals (EQueueGet <$> q) = [].
Proof. induction q; [reflexivity | assumption]. Qed.

Lemma signals_monitor me i :
  signals (monitor_trace me i)
  = if breached me then signals (kill_events (breach_kill me)) else [].
Proof.
  unfold monitor_trace, breached, breach_events, monitor_tail.
  change (signals (ENvmlInit :: ?l)) with (signals l).
  rewrite !signals_app, signals_sleeps.
  destruct (first_breach _ _); cbn [app];
    [change (signals (_ :: _ :: _ :: ?l)) with (signals l)|];
    destruct (completes me), (gpu_handle me); cbn;
    rewrite ?app_nil_r; reflexivity.
Qed.

Lemma signals_execute env command exp_it exp_folder timeout_seconds :
  signals (execute_trace env command exp_it exp_folder timeout_seconds)
  = match open_log env, popen env with
    | Ok _, Ok _ =>
        (if monitor_first env then signals (monitor_trace (monitor env) 10)
         else [])
        ++ (if timed_out env then signals (kill_events (timeout_kill env))
            else [])
        ++ (if execute_returns env && negb (monitor_first env)
            then signals (monitor_trace (monitor env) 10) else [])
    | _, _ => []
    end.
Proof.
  unfold execute_trace, supervise_trace, wait_events.
  destruct (open_log env) as [[]|eo]; [|reflexivity].
  change (signals (EOpen ?p :: ?l)) with (signals l).
  rewrite signals_app.
  change (signals (EClose :: ?l)) with (signals l).
  replace (signals (if execute_returns env then _ else _)) with
    (@nil (Z * signal));
    [|destruct (execute_returns env); [|reflexivity];
      destruct (fs_exists env _); reflexivity].
  rewrite app_nil_r.
  destruct (popen env) as [pid|ep]; [|reflexivity].
  cbn [app]. change (signals (_ :: _ :: EThreadStart :: ?l)) with (signals l).
  rewrite !signals_app.
  change (signals (ECommunicate ?n :: ?l)) with (signals l).
  f_equal; [now destruct (monitor_first env)|].
  rewrite signals_app. f_equal; [now destruct (timed_out env)|].
  destruct (execute_returns env); [|reflexivity].
  rewrite signals_app.
  change (signals (EJoin :: ?l)) with (signals l).
  rewrite signals_gets, app_nil_r. now destruct (monitor_first env).
Qed.

(** ** kill_process *)

(** X1.  [kill_process] signals the group with SIGTERM first; SIGKILL
    follows exactly when SIGTERM was delivered, the wait of 5 seconds
    expired and the group was found again; no other signal is sent, and
    the only wait is the one of 5 seconds. *)
Theorem kill_process_escalation (k : kill_env) (w : world) :
  signals (kill_process k w).2
  = match getpgid_term k with
    | Raise _ => []
    | Ok pg =>
        (pg, SIGTERM)
        :: match killpg_term k, wait_5 k, getpgid_kill k with
           | Ok _, WaitTimeoutExpired, Ok pg' => [(pg', SIGKILL)]
           | _, _, _ => []
           end
    end
  ∧ ∀ n, EWait n ∈ (kill_process k w).2 → n = 5.
Proof.
  rewrite kill_process_exact. cbn [snd]. rewrite kill_events_eq.
  destruct k as [[g1|e1] [[]|e2] [|] [g2|e3] [[]|e4]]; cbn;
    (split; [reflexivity|]); intros n H;
    repeat (apply elem_of_cons in H as [H|H];
            [try discriminate H; try (injection H; congruence)|]);
    now apply elem_of_nil in H.
Qed.

Lemma kill_process_escalation_witness :
  signals (kill_process (kill_ok 4242 WaitTimeoutExpired) init_world).2
  = [(4242, SIGTERM); (4242, SIGKILL)]
  ∧ (EWait 5 ∈ (kill_process (kill_ok 4242 WaitTimeoutExpired) init_world).2
     → 5 = 5).
Proof.
  destruct (kill_process_escalation (kill_ok 4242 WaitTimeoutExpired)
              init_world) as [Hs Hw].
  split; [exact Hs | exact (Hw 5)].
Defined.

(** ** The outcomes of execute *)

Lemma timed_out_true env :
  communicate env = CommTimeoutExpired → timed_out env = true.
Proof. unfold timed_out. now intros ->. Qed.

Lemma timed_out_false env rc :
  communicate env = CommReturned rc → timed_out env = false.
Proof. unfold timed_out. now intros ->. Qed.

(** X2.  When the wait of [execute] ends by the timeout and [kill_process]
    returns, [execute] returns a failure whose comments begin with
    ["Process took too long > N seconds. Process killed."], followed by
    the diagnostics of the monitor; the message is logged at error level
    and the signals of [kill_process] are delivered. *)
Theorem execute_timeout_failure env command exp_it exp_folder timeout_seconds
    w pid :
  open_log env = Ok () →
  popen env = Ok pid →
  communicate env = CommTimeoutExpired →
  lookups_ok (timeout_kill env) = true →
  ∃ r w' t,
    execute env command exp_it exp_folder timeout_seconds w = (Ok r, w', t)
    ∧ success r = false
    ∧ comments r
      = ("Process took too long > " +:+ pretty timeout_seconds
         +:+ " seconds. Process killed.")
        +:+ lines (queue_puts t)
    ∧ EPrintMsg ("Process took too long > " +:+ pretty timeout_seconds
                 +:+ " seconds") LvlError ∈ t
    ∧ ∃ t1 t2, t = t1 ++ (kill_process (timeout_kill env) w).2 ++ t2.
Proof.
  intros Ho Hp Hc%timed_out_true Hk.
  assert (Hret : execute_returns env = true)
    by (unfold execute_returns; now rewrite Ho, Hp, Hc, Hk).
  destruct (execute_exact env command exp_it exp_folder timeout_seconds w)
    as [w' H].
  destruct (execute_returns_eq env command exp_it exp_folder timeout_seconds
              w Hret) as (w1 & t1 & H1 & Hops).
  rewrite H in H1. injection H1 as Hres <- <-.
  eexists _, w', _. split; [rewrite H, Hres; reflexivity|].
  cbn [success comments expected_result]. rewrite Hc.
  split; [reflexivity|].
  split.
  { rewrite <- queue_puts_shared, Hops, queue_puts_app.
    destruct (before_join_facts env) as (_ & -> & _).
    change (queue_puts (EJoin :: ?l)) with (queue_puts l).
    destruct (after_join_facts env exp_it exp_folder timeout_seconds)
      as (_ & -> & _).
    rewrite app_nil_r. unfold timeout_msg. now rewrite !append_assoc. }
  rewrite kill_process_exact. cbn [snd].
  unfold execute_trace, supervise_trace, wait_events.
  rewrite Ho, Hp, Hc, Hret. split.
  - apply elem_of_cons. right. apply elem_of_app. left.
    do 3 (apply elem_of_cons; right).
    apply elem_of_app. right. apply elem_of_app. left.
    do 1 (apply elem_of_cons; right). left.
  - exists (EOpen (log_file_path exp_folder exp_it)
            :: EPrintLogFile (log_file_path exp_folder exp_it)
            :: EPopen command :: EThreadStart
            :: (if monitor_first env then monitor_trace (monitor env) 10
                else [])
            ++ [ECommunicate timeout_seconds;
                EPrintMsg (timeout_msg timeout_seconds) LvlError;
                EFlagWrite false]).
    eexists. cbn [app]. do 4 f_equal.
    rewrite <- (app_assoc _ [_; _; _]). cbn [app].
    rewrite <- (app_assoc _ (_ :: _)). cbn [app].
    do 4 f_equal. rewrite <- app_assoc. reflexivity.
Qed.



Lemma execute_timeout_failure_witness :
  ∃ r w' t,
    execute (with_communicate clean_run CommTimeoutExpired) "pixi run" 3
      ["exp"] 60 init_world = (Ok r, w', t)
    ∧ success r = false
    ∧ comments r = "Process took too long > 60 seconds. Process killed.".
Proof.
  destruct (execute_timeout_failure
              (with_communicate clean_run CommTimeoutExpired) "pixi run" 3
              ["exp"] 60 init_world 4242 eq_refl eq_refl eq_refl eq_refl)
    as (r & w' & t & H & Hs & Hc & _).
  exists r, w', t. split; [exact H|]. split; [exact Hs|].
  rewrite Hc. vm_compute in H. injection H as _ _ <-. vm_compute. reflexivity.
Defined.

(** X3.  When the wait of [execute] ends by the timeout and [kill_process]
    raises, [execute] raises that error to its caller: no result is
    built, the caller never joins the monitor thread and reads nothing
    back from the flag, the queue or the statistics.  The thread itself
    makes no join and no read, so neither count depends on when it
    runs. *)
Theorem execute_timeout_kill_raises env command exp_it exp_folder
    timeout_seconds w pid e :
  open_log env = Ok () →
  popen env = Ok pid →
  communicate env = CommTimeoutExpired →
  (kill_process (timeout_kill env) w).1.1 = Raise e →
  ∃ w' t,
    execute env command exp_it exp_folder timeout_seconds w = (Raise e, w', t)
    ∧ count_events is_join t = 0%nat
    ∧ count_events is_read t = 0%nat.
Proof.
  intros Ho Hp Hc%timed_out_true Hk. rewrite kill_process_exact in Hk.
  cbn [fst] in Hk.
  assert (Hl : lookups_ok (timeout_kill env) = false).
  { destruct (kill_result_cases (timeout_kill env)) as [[_ H]|[H _]];
      [congruence | exact H]. }
  assert (Hret : execute_returns env = false)
    by (unfold execute_returns; now rewrite Ho, Hp, Hc, Hl).
  destruct (execute_exact env command exp_it exp_folder timeout_seconds w)
    as [w' H].
  exists w', (execute_trace env command exp_it exp_folder timeout_seconds).
  split.
  { rewrite H. unfold execute_result. now rewrite Ho, Hp, Hc, Hk. }
  unfold execute_trace, supervise_trace, wait_events.
  rewrite Ho, Hp, Hc, Hret, !app_nil_r.
  assert (Hcount : ∀ f,
            f (EOpen (log_file_path exp_folder exp_it)) = false →
            f (EPrintLogFile (log_file_path exp_folder exp_it)) = false →
            f (EPopen command) = false → f EThreadStart = false →
            f (ECommunicate timeout_seconds) = false → f EClose = false →
            (∀ ev, is_monitor_event ev = true → f ev = false) →
            count_events f
              (EOpen (log_file_path exp_folder exp_it)
               :: ([EPrintLogFile (log_file_path exp_folder exp_it);
                    EPopen command]
                   ++ EThreadStart
                      :: (if monitor_first env
                          then monitor_trace (monitor env) 10 else [])
                      ++ ECommunicate timeout_seconds
                         :: EPrintMsg (timeout_msg timeout_seconds) LvlError
                            :: EFlagWrite false
                               :: kill_events (timeout_kill env))
                  ++ [EClose]) = 0%nat).
  { intros f H1 H2 H3 H4 H5 H6 Hm.
    cbn [app]. count_simpl.
    rewrite H1, H2, H3, H4, H5, H6.
    rewrite (Hm (EPrintMsg _ _) eq_refl), (Hm (EFlagWrite _) eq_refl).
    rewrite (count_events_kill f).
    2:{ intros ev Hev. apply Hm. unfold is_monitor_event. now destruct ev. }
    destruct (monitor_first env);
      [rewrite (count_events_monitor f _ _ Hm)|]; reflexivity. }
  split; apply Hcount; try reflexivity; now intros [].
Qed.

Lemma execute_timeout_kill_raises_witness :
  ∃ w' t,
    execute
      {| open_log := Ok (); popen := Ok 4242;
         communicate := CommTimeoutExpired; timeout_kill := kill_gone;
         monitor := quiet_monitor; monitor_first := true;
         fs_exists := λ _, true |} "pixi run" 3 ["exp"] 60 init_world
    = (Raise ProcessLookupError, w', t)
    ∧ count_events is_join t = 0%nat
    ∧ count_events is_read t = 0%nat.
Proof.
  apply (execute_timeout_kill_raises _ "pixi run" 3 ["exp"] 60 init_world
           4242 ProcessLookupError); reflexivity.
Defined.

Lemma append_nil_l (a : string) : "" +:+ a = a.
Proof. reflexivity. Qed.

(** X4.  When the monitor meets a breach and the wait of the caller
    returns, [execute] returns a failure whose comments are the diagnostic
    of the breach followed by a newline.  An exception of [kill_process]
    inside the monitor thread does not reach the caller: [execute] still
    returns, with ['N/A'] for the three statistics. *)
Theorem execute_breach_failure env command exp_it exp_folder timeout_seconds
    w pid rc pre s rest :
  open_log env = Ok () →
  popen env = Ok pid →
  communicate env = CommReturned rc →
  ticks (monitor env) = (TickSample <$> pre) ++ TickSample s :: rest →
  Forall (λ x, breach (snapshots (monitor env)) x = false) pre →
  breach (snapshots (monitor env)) s = true →
  ∃ r w' t,
    execute env command exp_it exp_folder timeout_seconds w = (Ok r, w', t)
    ∧ success r = false
    ∧ comments r
      = (if Qgtb (ram_perc (snapshots (monitor env)) s) MAX_RAM_PERC
         then ram_msg (snapshots (monitor env)) s
         else swap_msg (snapshots (monitor env)) s)
        +:+ ". Process killed." +:+ newline
    ∧ ((kill_process (breach_kill (monitor env)) w).1.1 ≠ Ok () →
       ram r = PyStr "N/A" ∧ swap r = PyStr "N/A" ∧ gpu r = PyStr "N/A").
Proof.
  intros Ho Hp Hc%timed_out_false Hts Hpre Hs.
  assert (Hret : execute_returns env = true)
    by (unfold execute_returns; now rewrite Ho, Hp, Hc).
  destruct (execute_returns_eq env command exp_it exp_folder timeout_seconds
              w Hret) as (w' & t & H & _).
  destruct (first_breach_split _ pre s rest Hpre Hs) as [Hfb _].
  rewrite <- Hts in Hfb.
  exists (expected_result env exp_it exp_folder timeout_seconds), w', t.
  split; [exact H|].
  cbn [success comments ram swap gpu expected_result].
  unfold breached, diagnostics, reported, completes, breached.
  rewrite Hc, Hfb. cbn [negb andb orb lines foldr].
  split; [reflexivity|]. split.
  - unfold diagnostic, ram_breach.
    now rewrite append_nil_l, append_nil_r, append_assoc.
  - rewrite kill_process_exact. cbn [fst]. intros Hk.
    destruct (kill_result_cases (breach_kill (monitor env)))
      as [[_ Hok]|[-> _]]; [contradiction | auto].
Qed.

Lemma execute_breach_failure_witness :
  ∃ r w' t,
    execute ram_hungry_run "pixi run" 3 ["exp"] 60 init_world = (Ok r, w', t)
    ∧ success r = false
    ∧ comments r
      = "RAM threshold exceeded: 15.5/16.0 GB (> 95%). Process killed."
        +:+ newline.
Proof.
  destruct (execute_breach_failure ram_hungry_run "pixi run" 3 ["exp"] 60
              init_world 4242 (-15) [mkSample (6 * GiB) 0 None] ram_high
              [TickSample (mkSample (7 * GiB) 0 None)])
    as (r & w' & t & H & Hs & Hc & _); try reflexivity.
  { repeat constructor. }
  exists r, w', t. split; [exact H|]. split; [exact Hs|].
  rewrite Hc. vm_compute. reflexivity.
Defined.

(** X5.  When the child ends by itself and the monitor meets no breach but
    the trajectory file is missing, [execute] returns a failure with empty
    comments. *)
Theorem execute_missing_artifact env command exp_it exp_folder
    timeout_seconds w pid rc :
  open_log env = Ok () →
  popen env = Ok pid →
  communicate env = CommReturned rc →
  ¬ breach_occurs (monitor env) →
  fs_exists env (artifact_path exp_folder exp_it) = false →
  ∃ r w' t,
    execute env command exp_it exp_folder timeout_seconds w = (Ok r, w', t)
    ∧ success r = false ∧ comments r = ""
    ∧ flag_writes t = [false].
Proof.
  intros Ho Hp Hc%timed_out_false Hb Hex.
  assert (Hret : execute_returns env = true)
    by (unfold execute_returns; now rewrite Ho, Hp, Hc).
  destruct (execute_returns_eq env command exp_it exp_folder timeout_seconds
              w Hret) as (w' & t & H & Hops).
  rewrite breach_occurs_breached, not_true_iff_false in Hb.
  exists (expected_result env exp_it exp_folder timeout_seconds), w', t.
  split; [exact H|].
  cbn [success comments expected_result]. rewrite Hc, Hb, Hex.
  split; [reflexivity|]. split.
  - unfold diagnostics, breached in *.
    destruct (first_breach _ _); [discriminate | reflexivity].
  - rewrite <- flag_writes_shared, Hops, flag_writes_app.
    destruct (before_join_facts env) as (_ & _ & ->).
    change (flag_writes (EJoin :: ?l)) with (flag_writes l).
    destruct (after_join_facts env exp_it exp_folder timeout_seconds)
      as (_ & _ & ->).
    now rewrite Hb, Hc, Hex.
Qed.

Lemma execute_missing_artifact_witness :
  ∃ r w' t,
    execute no_trajectory_run "pixi run" 3 ["exp"] 60 init_world
    = (Ok r, w', t)
    ∧ success r = false ∧ comments r = ""
    ∧ flag_writes t = [false].
Proof.
  apply (execute_missing_artifact no_trajectory_run "pixi run" 3 ["exp"] 60
           init_world 4242 0); try reflexivity.
  rewrite breach_occurs_breached. vm_compute. discriminate.
Defined.

(** X6.  No signal is delivered during a call of [execute], whatever its
    outcome, unless the wait ended by the timeout or the monitor met a
    breach. *)
Theorem signals_only_on_failure env command exp_it exp_folder
    timeout_seconds w r w' t :
  execute env command exp_it exp_folder timeout_seconds w = (r, w', t) →
  signals t ≠ [] →
  communicate env = CommTimeoutExpired ∨ breach_occurs (monitor env).
Proof.
  intros H Hsig.
  destruct (execute_exact env command exp_it exp_folder timeout_seconds w)
    as [w1 H1].
  rewrite H in H1. injection H1 as _ _ ->.
  rewrite signals_execute, !signals_monitor in Hsig.
  rewrite breach_occurs_breached.
  destruct (communicate env) eqn:Hc; [|now left].
  right. unfold timed_out in Hsig. rewrite Hc in Hsig.
  destruct (breached (monitor env)); [reflexivity|].
  destruct (open_log env), (popen env), (monitor_first env),
    (execute_returns env); now cbn in Hsig.
Qed.

Lemma signals_only_on_failure_witness :
  ∃ r w' t,
    execute ram_hungry_run "pixi run" 3 ["exp"] 60 init_world = (r, w', t)
    ∧ signals t = [(4242, SIGTERM)]
    ∧ (communicate ram_hungry_run = CommTimeoutExpired
       ∨ breach_occurs (monitor ram_hungry_run)).
Proof.
  eexists _, _, _. split; [vm_compute; reflexivity|].
  split; [reflexivity|].
  eapply (signals_only_on_failure ram_hungry_run "pixi run" 3 ["exp"] 60
            init_world).
  - vm_compute. reflexivity.
  - discriminate.
Defined.

(** ** The monitor *)

(** X7.  The monitor initialises NVML once, first of all.  It shuts NVML
    down once when it obtained a handle and reaches its last statements;
    it never shuts it down without a handle (even if the initialisation
    succeeded) nor when [kill_process] raises. *)
Theorem nvml_shutdown_once (me : monitor_env) (i : Z) (w : world) :
  head (monitor_memory me i w).2 = Some ENvmlInit
  ∧ count_events is_shutdown (monitor_memory me i w).2
    = (if gpu_handle me && completes me then 1 else 0)%nat.
Proof.
  rewrite monitor_memory_exact. cbn [snd].
  unfold monitor_trace, breach_events, monitor_tail.
  split; [reflexivity|].
  rewrite count_events_cons, !count_events_app.
  rewrite (count_events_none _ (sleeps _ _))
    by (unfold sleeps; apply Forall_fmap, Forall_true; reflexivity).
  assert (Hb : count_events is_shutdown
                 match first_breach (snapshots me) (ticks me) with
                 | Some s =>
                     [EPrintMsg
                        (if ram_breach (snapshots me) s
                         then ram_msg (snapshots me) s
                         else swap_msg (snapshots me) s) LvlError;
                      EFlagWrite false;
                      EQueuePut (diagnostic (snapshots me) s)]
                     ++ kill_events (breach_kill me)
                 | None => []
                 end = 0%nat).
  { destruct (first_breach _ _); [|reflexivity].
    rewrite count_events_app, count_events_kill by now intros []. reflexivity. }
  rewrite Hb.
  destruct (gpu_handle me), (completes me); reflexivity.
Qed.

Lemma sampled_psutil_error b pre rest :
  Forall (λ x, breach b x = false) pre →
  first_breach b ((TickSample <$> pre) ++ TickPsutilError :: rest) = None
  ∧ sampled b ((TickSample <$> pre) ++ TickPsutilError :: rest) = pre.
Proof.
  induction 1 as [|x pre Hx _ [IH1 IH2]]; cbn; [auto|].
  rewrite Hx, IH1, IH2. auto.
Qed.

(** X8.  A [psutil] error on a pass (after passes without breach) ends the
    monitoring quietly: the monitor behaves exactly as if the process had
    ended at that pass, it returns, it neither writes the flag nor queues a
    diagnostic, and the later passes are never made. *)
Theorem psutil_error_ends_quietly me i w pre rest :
  ticks me = (TickSample <$> pre) ++ TickPsutilError :: rest →
  Forall (λ x, breach (snapshots me) x = false) pre →
  monitor_memory me i w = monitor_memory (with_ticks me (TickSample <$> pre)) i w
  ∧ ∃ w' t,
      monitor_memory me i w = (Ok (), w', t)
      ∧ success_flag w' = success_flag w
      ∧ comment_queue w' = comment_queue w
      ∧ count_events (λ ev, match ev with ESleep _ => true | _ => false end) t
        = length pre.
Proof.
  intros Hts Hpre.
  destruct (sampled_psutil_error (snapshots me) pre rest Hpre) as [Hfb Hsam].
  destruct (sampled_quiet (snapshots me) pre Hpre) as [Hfb2 Hsam2].
  rewrite <- Hts in Hfb, Hsam.
  rewrite !monitor_memory_exact.
  unfold monitor_result, world_after_monitor, monitor_trace, monitor_tail,
    completes, breached, diagnostics, final_peaks.
  destruct (snapshots_with_ticks me (TickSample <$> pre)) as [-> ->].
  cbn [ticks with_ticks breach_kill]. rewrite Hfb, Hfb2, Hsam, Hsam2.
  split; [reflexivity|].
  eexists _, _. split; [reflexivity|].
  cbn [success_flag comment_queue negb orb].
  rewrite andb_true_r, !app_nil_r. split; [reflexivity|].
  split; [reflexivity|]. cbn [app].
  rewrite count_events_cons, count_events_app. cbn [Nat.add].
  replace (count_events _ (_ ++ _)) with 0%nat
    by (destruct (gpu_handle me); reflexivity).
  rewrite Nat.add_0_r. unfold sleeps, count_events.
  clear. induction pre as [|x pre IH]; [reflexivity|]. cbn. now rewrite IH.
Qed.

Lemma psutil_error_ends_quietly_witness :
  ∃ w' t,
    monitor_memory
      (with_ticks quiet_monitor
         [TickSample both_low; TickPsutilError; TickSample ram_high]) 10
      init_world = (Ok (), w', t)
    ∧ success_flag w' = true
    ∧ comment_queue w' = []
    ∧ count_events (λ ev, match ev with ESleep _ => true | _ => false end) t
      = 1%nat.
Proof.
  destruct (psutil_error_ends_quietly
              (with_ticks quiet_monitor
                 [TickSample both_low; TickPsutilError; TickSample ram_high])
              10 init_world [both_low] [TickSample ram_high] eq_refl)
    as [_ H]; [repeat constructor | exact H].
Defined.

Lemma to_gb_sign bytes : (0 < to_gb bytes)%Q ↔ (0 < bytes)%Z.
Proof.
  unfold to_gb, Qlt, Qdiv, Qmult, Qinv, inject_Z.
  change (1024 ^ 3)%Z with 1073741824%Z. cbn. lia.
Qed.

(** X9.  On a host that reports no swap (a total of 0 bytes or less) the
    swap ratio is 0 whatever the usage, so no sample breaches the swap
    threshold; the same holds for RAM. *)
Theorem no_capacity_no_breach (me : monitor_env) (s : sample) :
  ((swap_total_bytes me <= 0)%Z →
     swap_perc (snapshots me) s = 0%Q ∧ swap_breach (snapshots me) s = false)
  ∧ ((ram_total_bytes me <= 0)%Z →
     ram_perc (snapshots me) s = 0%Q ∧ ram_breach (snapshots me) s = false).
Proof.
  split; intros H.
  - assert (E : Qgtb (swap_max (snapshots me)) 0 = false).
    { apply Qgtb_le, Qnot_lt_le. cbn [snapshots swap_max].
      rewrite to_gb_sign. lia. }
    unfold swap_breach, swap_perc. rewrite E. auto.
  - assert (E : Qgtb (ram_max (snapshots me)) 0 = false).
    { apply Qgtb_le, Qnot_lt_le. cbn [snapshots ram_max].
      rewrite to_gb_sign. lia. }
    unfold ram_breach, ram_perc. rewrite E. auto.
Qed.

Lemma no_capacity_no_breach_witness :
  swap_breach
    (snapshots
       {| nvml_init := false; nvml_count := None; nvml_handle := false;
          swap_0_bytes := 0; swap_total_bytes := 0;
          ram_0_bytes := 5 * GiB; ram_total_bytes := 16 * GiB;
          gpu_0_bytes := None; ticks := [];
          breach_kill := kill_ok 4242 WaitExited |}) swap_high = false.
Proof.
  refine (proj2 (proj1 (no_capacity_no_breach _ swap_high) _)).
  vm_compute. discriminate.
Defined.

Lemma gpu_step_maximum x g b s a l :
  is_maximum x
    (gpu_inc_max (track g b s {| ram_inc_max := 0; swap_inc_max := 0;
                                 gpu_inc_max := a |})
     :: l) →
  is_maximum x (a :: (if g then gpu_increments b [s] else []) ++ l).
Proof.
  unfold gpu_increments. cbn [track gpu_inc_max omap list_omap].
  destruct g; [|now cbn].
  destruct (gpu_used_bytes s) as [u|]; cbn; [|trivial].
  apply is_maximum_step.
Qed.

Lemma gpu_peak_maximum g b l p :
  is_maximum (gpu_inc_max (peaks_after g b l p))
    (gpu_inc_max p :: if g then gpu_increments b l else []).
Proof.
  revert p. induction l as [|s l IH]; intros p.
  - cbn. destruct g; (split; [eexists; split; [left | reflexivity] |]);
      intros y ->%list_elem_of_singleton; apply Qle_refl.
  - cbn [peaks_after foldl]. fold (peaks_after g b l (track g b s p)).
    specialize (IH (track g b s p)).
    assert (E : gpu_inc_max (track g b s p)
                = gpu_inc_max (track g b s {| ram_inc_max := 0;
                                              swap_inc_max := 0;
                                              gpu_inc_max := gpu_inc_max p |}))
      by reflexivity.
    rewrite E in IH. apply gpu_step_maximum in IH.
    destruct g; [|exact IH].
    unfold gpu_increments in *. cbn [omap list_omap] in *.
    destruct (gpu_used_bytes s); exact IH.
Qed.

(** X10.  When the monitor runs to its end with a GPU handle, the GPU
    statistic returned by [execute] is at least 0 and is the greatest of 0
    and the increments over the GPU baseline read on the passes without
    breach; a pass whose GPU read raises contributes nothing, and when the
    baseline read raised the baseline is 0. *)
Theorem gpu_peak_is_clamped_increment env command exp_it exp_folder
    timeout_seconds w r w' t :
  execute env command exp_it exp_folder timeout_seconds w = (Ok r, w', t) →
  monitor_completes (monitor env) →
  gpu_handle (monitor env) = true →
  (gpu_0_bytes (monitor env) = None → gpu_0 (snapshots (monitor env)) = 0%Q)
  ∧ ∃ pg,
      gpu r = PyNum pg ∧ (0 <= pg)%Q
      ∧ is_maximum pg
          (0%Q :: gpu_increments (snapshots (monitor env))
                    (sampled (snapshots (monitor env)) (ticks (monitor env)))).
Proof.
  intros H Hc%monitor_completes_completes Hg.
  destruct (execute_Ok_returns _ _ _ _ _ _ _ _ _ H) as (_ & -> & _).
  split; [intros E; cbn [snapshots gpu_0]; now rewrite Hg, E|].
  cbn [gpu expected_result]. unfold reported, final_peaks. rewrite Hc.
  pose proof (gpu_peak_maximum (gpu_handle (monitor env))
                (snapshots (monitor env))
                (sampled (snapshots (monitor env)) (ticks (monitor env)))
                peaks_0) as Hm.
  rewrite Hg in Hm |- *.
  eexists. split; [reflexivity|].
  split; [exact (is_maximum_nonneg _ _ Hm) | exact Hm].
Qed.

Lemma gpu_peak_is_clamped_increment_witness :
  ∃ r w' t,
    execute gpu_run "pixi run" 3 ["exp"] 60 init_world = (Ok r, w', t)
    ∧ ∃ pg,
        gpu r = PyNum pg ∧ (pg == 2)%Q
        ∧ is_maximum pg
            (0%Q :: gpu_increments (snapshots gpu_monitor)
                      (sampled (snapshots gpu_monitor) (ticks gpu_monitor))).
Proof.
  eexists _, _, _. split; [vm_compute; reflexivity|].
  destruct (gpu_peak_is_clamped_increment gpu_run "pixi run" 3 ["exp"] 60
              init_world _ _ _ eq_refl) as (_ & pg & Hg & _ & Hm).
  - apply monitor_completes_completes. vm_compute. reflexivity.
  - reflexivity.
  - exists pg. split; [exact Hg|]. split; [|exact Hm].
    injection Hg as <-. vm_compute. reflexivity.
Defined.

(** X11.  The three statistics of a result go together: they are three
    numbers, each at least 0, when the monitor ran to its end, and three
    times the string ['N/A'] when its thread was ended by an exception. *)
Theorem statistics_all_or_none env command exp_it exp_folder timeout_seconds
    w r w' t :
  execute env command exp_it exp_folder timeout_seconds w = (Ok r, w', t) →
  (monitor_completes (monitor env) ∧
   ∃ a b c, ram r = PyNum a ∧ swap r = PyNum b ∧ gpu r = PyNum c
            ∧ (0 <= a)%Q ∧ (0 <= b)%Q ∧ (0 <= c)%Q)
  ∨ (¬ monitor_completes (monitor env) ∧
     ram r = PyStr "N/A" ∧ swap r = PyStr "N/A" ∧ gpu r = PyStr "N/A").
Proof.
  intros H.
  destruct (execute_Ok_returns _ _ _ _ _ _ _ _ _ H) as (_ & -> & _).
  cbn [ram swap gpu expected_result]. unfold reported.
  rewrite monitor_completes_completes.
  destruct (completes (monitor env)); [left | right].
  - split; [reflexivity|]. eexists _, _, _. repeat (split; [reflexivity|]).
    unfold final_peaks.
    destruct (peaks_after_maximum (gpu_handle (monitor env))
                (snapshots (monitor env))
                (sampled (snapshots (monitor env)) (ticks (monitor env)))
                peaks_0) as [Hr Hs].
    pose proof (gpu_peak_maximum (gpu_handle (monitor env))
                  (snapshots (monitor env))
                  (sampled (snapshots (monitor env)) (ticks (monitor env)))
                  peaks_0) as Hg.
    split; [exact (is_maximum_nonneg _ _ Hr)|].
    split; [exact (is_maximum_nonneg _ _ Hs)|].
    exact (is_maximum_nonneg _ _ Hg).
  - split; [discriminate | auto].
Qed.

Lemma statistics_all_or_none_witness :
  ∃ r w' t,
    execute unlucky_run "pixi run" 3 ["exp"] 60 init_world = (Ok r, w', t)
    ∧ ram r = PyStr "N/A" ∧ swap r = PyStr "N/A" ∧ gpu r = PyStr "N/A".
Proof.
  eexists _, _, _. split; [vm_compute; reflexivity|].
  destruct (statistics_all_or_none unlucky_run "pixi run" 3 ["exp"] 60
              init_world _ _ _ eq_refl) as [[Hc _]|[_ H]]; [|exact H].
  apply monitor_completes_completes in Hc. vm_compute in Hc. discriminate.
Defined.

(** X13.  Whatever the outcome of [execute], the log file is opened once,
    first of all, and is closed once if it could be opened; when it
    cannot be opened, [execute] raises that error and does nothing
    else. *)
Theorem log_file_closed_once env command exp_it exp_folder timeout_seconds w :
  head (execute env command exp_it exp_folder timeout_seconds w).2
  = Some (EOpen (log_file_path exp_folder exp_it))
  ∧ count_events is_open
      (execute env command exp_it exp_folder timeout_seconds w).2 = 1%nat
  ∧ count_events is_close
      (execute env command exp_it exp_folder timeout_seconds w).2
    = (match open_log env with Ok _ => 1 | Raise _ => 0 end)%nat
  ∧ ∀ e, open_log env = Raise e →
      ∃ w', execute env command exp_it exp_folder timeout_seconds w
            = (Raise e, w', [EOpen (log_file_path exp_folder exp_it)]).
Proof.
  destruct (execute_exact env command exp_it exp_folder timeout_seconds w)
    as [w' H]. rewrite H. cbn [snd].
  split; [reflexivity|].
  assert (Hcount : ∀ f,
            (∀ ev, is_monitor_event ev = true → f ev = false) →
            (∀ p, f (EPrintLogFile p) = false) →
            (∀ c, f (EPopen c) = false) → f EThreadStart = false →
            (∀ n, f (ECommunicate n) = false) → f EJoin = false →
            (∀ m, f (EQueueGet m) = false) → (∀ p, f (EExists p) = false) →
            (∀ b, f (EFlagRead b) = false) → (∀ k, f (EStatsGet k) = false) →
            count_events f
              (execute_trace env command exp_it exp_folder timeout_seconds)
            = ((if f (EOpen (log_file_path exp_folder exp_it)) then 1 else 0)
               + match open_log env with
                 | Ok _ => if f EClose then 1 else 0
                 | Raise _ => 0
                 end)%nat).
  { intros f Hm Hl Hp Hts Hco Hj Hg Hx Hfr Hsg.
    assert (Hk : ∀ k, count_events f (kill_events k) = 0%nat).
    { intros k. apply count_events_kill. intros ev Hev. apply Hm.
      unfold is_monitor_event. now destruct ev. }
    assert (Hq : ∀ q, count_events f (EQueueGet <$> q) = 0%nat).
    { intros q. apply count_events_none, Forall_fmap, Forall_true.
      intros m. apply Hg. }
    unfold execute_trace, supervise_trace, wait_events.
    destruct (open_log env) as [[]|eo]; [|now rewrite count_events_cons].
    destruct (popen env), (monitor_first env), (timed_out env),
      (execute_returns env),
      (fs_exists env (artifact_path exp_folder exp_it));
      cbn [app]; count_simpl;
      rewrite ?Hk, ?Hq, ?(count_events_monitor f _ _ Hm), ?Hl, ?Hp, ?Hts,
        ?Hco, ?Hj, ?Hx, ?Hfr, ?Hsg, ?(Hm (EPrintMsg _ _) eq_refl),
        ?(Hm (EFlagWrite _) eq_refl);
      cbn [count_events List.filter length]; lia. }
  split; [rewrite Hcount by (try reflexivity; now intros []);
          now destruct (open_log env)|].
  split; [rewrite Hcount by (try reflexivity; now intros []);
          now destruct (open_log env)|].
  intros e He. exists w'. unfold execute_result, execute_trace.
  now rewrite He.
Qed.

Lemma log_file_closed_once_witness :
  ∃ w', execute unwritable_run "pixi run" 3 ["exp"] 60 init_world
        = (Raise PermissionError, w', [EOpen ["exp"; "system_output_00003.txt"]]).
Proof.
  destruct (log_file_closed_once unwritable_run "pixi run" 3 ["exp"] 60
              init_world) as (_ & _ & _ & H).
  exact (H PermissionError eq_refl).
Defined.

(** * The command lines *)

Example cpp_command_ex :
  build_execute_command_cpp
    (ORBSLAM2_baseline sample_baselines "orbslam2" "ORB-SLAM2") 3
    sample_experiment sample_dataset "office0"
  = Returns
      ("pixi run --frozen -e orbslam2 execute-rgbd "
       +:+ "sequence_path:/data/REPLICA/office0 "
       +:+ "calibration_yaml:/data/REPLICA/office0/calibration.yaml "
       +:+ "rgb_csv:/exp/demo/REPLICA/office0/rgb_exp.csv "
       +:+ "exp_folder:/exp/demo/REPLICA/office0 exp_id:3 "
       +:+ "settings_yaml:/opt/VSLAM-LAB/Baselines/ORB-SLAM2/vslamlab_orbslam2_settings.yaml "
       +:+ "verbose:0 mode:rgbd "
       +:+ "vocabulary:/opt/VSLAM-LAB/Baselines/ORB-SLAM2/Vocabulary/ORBvoc.txt").
Proof. vm_compute. reflexivity. Qed.

Example py_replace_ex :
  py_replace "mode:" "" "mode:mono" = "mono"
  ∧ py_replace "ab" "x" "ababcab" = "xxcx"
  ∧ py_replace "aa" "b" "aaa" = "ba".
Proof. vm_compute. auto. Qed.

(** ** Python strings *)

Lemma append_cons (c : ascii) (a b : string) :
  String c a +:+ b = String c (a +:+ b).
Proof. reflexivity. Qed.

Lemma prefix_cons (a b : ascii) (s1 s2 : string) :
  String.prefix (String a s1) (String b s2)
  = if Ascii.ascii_dec a b then String.prefix s1 s2 else false.
Proof. reflexivity. Qed.

Lemma prefix_cons_nil (a : ascii) (s1 : string) :
  String.prefix (String a s1) "" = false.
Proof. reflexivity. Qed.

Lemma prefix_nil (s : string) : String.prefix "" s = true.
Proof. now destruct s. Qed.

Lemma prefix_split (a s : string) :
  String.prefix a s = true → ∃ r, s = a +:+ r.
Proof.
  revert s. induction a as [|x a IH]; intros s H.
  - exists s. reflexivity.
  - destruct s as [|y s]; [discriminate|]. rewrite prefix_cons in H.
    destruct (Ascii.ascii_dec x y) as [<-|]; [|discriminate].
    destruct (IH _ H) as [r ->]. exists r. reflexivity.
Qed.

Lemma prefix_prepend (a x y : string) :
  String.prefix (a +:+ x) (a +:+ y) = String.prefix x y.
Proof.
  induction a as [|c a IH]; [reflexivity|].
  rewrite !append_cons, prefix_cons.
  destruct (Ascii.ascii_dec c c); [exact IH | congruence].
Qed.

Lemma length_append (a b : string) :
  String.length (a +:+ b) = (String.length a + String.length b)%nat.
Proof.
  induction a as [|c a IH]; [reflexivity|].
  rewrite append_cons. cbn. now rewrite IH.
Qed.

Lemma string_drop_append (a b : string) :
  string_drop (String.length a) (a +:+ b) = b.
Proof. induction a as [|c a IH]; [now destruct b | exact IH]. Qed.

Lemma absent_prefix (old s : string) :
  absent old s → String.prefix old s = false.
Proof.
  intros H. destruct (String.prefix old s) eqn:E; [|reflexivity].
  destruct (prefix_split _ _ E) as [r ->]. now destruct (H "" r).
Qed.

Lemma absent_tail (old : string) (c : ascii) (s : string) :
  absent old (String c s) → absent old s.
Proof. intros H a b ->. now apply (H (String c a) b). Qed.

Lemma replace_fuel_absent (n : nat) (old new s : string) :
  absent old s → replace_fuel n old new s = s.
Proof.
  revert s. induction n as [|n IH]; intros s H; [reflexivity|].
  cbn [replace_fuel]. rewrite (absent_prefix _ _ H).
  destruct s as [|c s]; [reflexivity|].
  now rewrite (IH s (absent_tail _ _ _ H)).
Qed.

(** Replacing a leading [old] in a string that holds no other. *)
Lemma py_replace_leading (old new v : string) :
  old ≠ "" → absent old v →
  py_replace old new (old +:+ v) = new +:+ v.
Proof.
  intros Hold Hv. unfold py_replace. rewrite length_append.
  destruct old as [|c old]; [congruence|].
  cbn [String.length Nat.add replace_fuel].
  rewrite prefix_append.
  change (S (String.length old)) with (String.length (String c old)).
  now rewrite string_drop_append, replace_fuel_absent.
Qed.

(** The entries that [next(...)] can select. *)
Lemma startswith_mode_cpp (k v : string) :
  startswith "mode:" (k +:+ ":" +:+ v)
  = bool_decide (k = "mode") || startswith "mode:" k.
Proof.
  unfold startswith.
  destruct k as [|c1 k]; [reflexivity|].
  rewrite append_cons, !prefix_cons.
  destruct (Ascii.ascii_dec "m" c1) as [<-|];
    [|rewrite bool_decide_eq_false_2 by congruence; reflexivity].
  destruct k as [|c2 k]; [reflexivity|].
  rewrite append_cons, !prefix_cons.
  destruct (Ascii.ascii_dec "o" c2) as [<-|];
    [|rewrite bool_decide_eq_false_2 by congruence; reflexivity].
  destruct k as [|c3 k]; [reflexivity|].
  rewrite append_cons, !prefix_cons.
  destruct (Ascii.ascii_dec "d" c3) as [<-|];
    [|rewrite bool_decide_eq_false_2 by congruence; reflexivity].
  destruct k as [|c4 k]; [reflexivity|].
  rewrite append_cons, !prefix_cons.
  destruct (Ascii.ascii_dec "e" c4) as [<-|];
    [|rewrite bool_decide_eq_false_2 by congruence; reflexivity].
  destruct k as [|c5 k].
  { rewrite bool_decide_eq_true_2 by reflexivity.
    rewrite append_nil_l, append_cons, prefix_cons.
    destruct (Ascii.ascii_dec ":" ":"); [apply prefix_nil | congruence]. }
  rewrite append_cons, !prefix_cons.
  rewrite bool_decide_eq_false_2 by congruence.
  destruct (Ascii.ascii_dec ":" c5); [now rewrite !prefix_nil | reflexivity].
Qed.

Lemma startswith_mode_python (k v : string) :
  startswith "--mode " ("--" +:+ k +:+ " " +:+ v)
  = bool_decide (k = "mode") || startswith "mode " k.
Proof.
  unfold startswith.
  change "--mode " with ("--" +:+ "mode "). rewrite prefix_prepend.
  destruct k as [|c1 k]; [reflexivity|].
  rewrite append_cons, !prefix_cons.
  destruct (Ascii.ascii_dec "m" c1) as [<-|];
    [|rewrite bool_decide_eq_false_2 by congruence; reflexivity].
  destruct k as [|c2 k]; [reflexivity|].
  rewrite append_cons, !prefix_cons.
  destruct (Ascii.ascii_dec "o" c2) as [<-|];
    [|rewrite bool_decide_eq_false_2 by congruence; reflexivity].
  destruct k as [|c3 k]; [reflexivity|].
  rewrite append_cons, !prefix_cons.
  destruct (Ascii.ascii_dec "d" c3) as [<-|];
    [|rewrite bool_decide_eq_false_2 by congruence; reflexivity].
  destruct k as [|c4 k]; [reflexivity|].
  rewrite append_cons, !prefix_cons.
  destruct (Ascii.ascii_dec "e" c4) as [<-|];
    [|rewrite bool_decide_eq_false_2 by congruence; reflexivity].
  destruct k as [|c5 k].
  { rewrite bool_decide_eq_true_2 by reflexivity.
    rewrite append_nil_l, append_cons, prefix_cons.
    destruct (Ascii.ascii_dec " " " "); [apply prefix_nil | congruence]. }
  rewrite append_cons, !prefix_cons.
  rewrite bool_decide_eq_false_2 by congruence.
  destruct (Ascii.ascii_dec " " c5); [now rewrite !prefix_nil | reflexivity].
Qed.

(** ** The list of entries *)

Lemma foldl_extend_cpp exp cmd l :
  foldl (extend_cpp exp) cmd l
  = cmd ++ ((λ kv, kv.1 +:+ ":" +:+ effective exp kv) <$> l).
Proof.
  revert cmd. induction l as [|kv l IH]; intros cmd; cbn [foldl fmap list_fmap].
  - now rewrite app_nil_r.
  - rewrite IH. unfold extend_cpp, effective.
    destruct (exp_parameters exp !! kv.1); cbn [default];
      now rewrite <- app_assoc.
Qed.

Lemma foldl_extend_python exp cmd l :
  foldl (extend_python exp) cmd l
  = cmd ++ ((λ kv, "--" +:+ kv.1 +:+ " " +:+ effective exp kv) <$> l).
Proof.
  revert cmd. induction l as [|kv l IH]; intros cmd; cbn [foldl fmap list_fmap].
  - now rewrite app_nil_r.
  - rewrite IH. unfold extend_python, effective.
    destruct (exp_parameters exp !! kv.1); cbn [default];
      now rewrite <- app_assoc.
Qed.

Lemma find_app {A} (f : A → bool) (l1 l2 : list A) :
  List.find f (l1 ++ l2)
  = match List.find f l1 with
    | Some x => Some x
    | None => List.find f l2
    end.
Proof.
  induction l1 as [|x l1 IH]; [reflexivity|]. cbn. now destruct (f x).
Qed.

Lemma find_entries_cpp exp l :
  List.find (startswith "mode:")
    ((λ kv, kv.1 +:+ ":" +:+ effective exp kv) <$> l)
  = (λ kv, kv.1 +:+ ":" +:+ effective exp kv)
    <$> List.find (λ kv, selects_mode_cpp kv.1) l.
Proof.
  induction l as [|kv l IH]; [reflexivity|].
  cbn [fmap list_fmap List.find]. rewrite startswith_mode_cpp.
  fold (selects_mode_cpp kv.1).
  destruct (selects_mode_cpp kv.1); [reflexivity | exact IH].
Qed.

Lemma find_entries_python exp l :
  List.find (startswith "--mode ")
    ((λ kv, "--" +:+ kv.1 +:+ " " +:+ effective exp kv) <$> l)
  = (λ kv, "--" +:+ kv.1 +:+ " " +:+ effective exp kv)
    <$> List.find (λ kv, selects_mode_python kv.1) l.
Proof.
  induction l as [|kv l IH]; [reflexivity|].
  cbn [fmap list_fmap List.find]. rewrite startswith_mode_python.
  fold (selects_mode_python kv.1).
  destruct (selects_mode_python kv.1); [reflexivity | exact IH].
Qed.

Lemma find_none_Forall {A} (f : A → bool) (l : list A) :
  List.find f l = None ↔ Forall (λ x, f x = false) l.
Proof.
  induction l as [|x l IH]; cbn; [split; [constructor | reflexivity]|].
  destruct (f x) eqn:E.
  - split; [discriminate|]. intros H. inversion H; congruence.
  - rewrite IH. split; [now constructor | intros H; now inversion H].
Qed.

Lemma find_first {A} (f : A → bool) (pre : list A) (x : A) (post : list A) :
  Forall (λ y, f y = false) pre → f x = true →
  List.find f (pre ++ x :: post) = Some x.
Proof.
  intros Hpre Hx. rewrite find_app.
  apply find_none_Forall in Hpre. rewrite Hpre. cbn. now rewrite Hx.
Qed.

(** The selection of the mode entry, on the defaults. *)
Lemma mode_entry_cpp b exp_it exp d sequence_name :
  List.find (startswith "mode:")
    (vslamlab_command_cpp b exp_it exp d sequence_name)
  = (λ kv, kv.1 +:+ ":" +:+ effective exp kv)
    <$> List.find (λ kv, selects_mode_cpp kv.1) (default_parameters b).
Proof.
  unfold vslamlab_command_cpp. cbn zeta.
  rewrite foldl_extend_cpp, find_app.
  replace (List.find _ [_; _; _; _; _; _]) with (@None string) by reflexivity.
  apply find_entries_cpp.
Qed.

Lemma mode_entry_python b exp_it exp d sequence_name :
  List.find (startswith "--mode ")
    (vslamlab_command_python b exp_it exp d sequence_name)
  = (λ kv, "--" +:+ kv.1 +:+ " " +:+ effective exp kv)
    <$> List.find (λ kv, selects_mode_python kv.1) (default_parameters b).
Proof.
  unfold vslamlab_command_python. cbn zeta.
  rewrite foldl_extend_python, find_app.
  replace (List.find _ [_; _; _; _; _; _]) with (@None string) by reflexivity.
  apply find_entries_python.
Qed.

(** ** The command *)

(** X14.  [build_execute_command_cpp] lists six fixed entries, then one
    entry [name:value] for each default parameter of the baseline, in the
    order of the dict, with the value of the experiment when the
    experiment has the key; [build_execute_command_python] does the same
    with entries [--name value]. *)
Theorem command_entries b exp_it exp d sequence_name :
  (∃ fixed,
     length fixed = 6%nat
     ∧ vslamlab_command_cpp b exp_it exp d sequence_name
       = fixed ++ ((λ kv, kv.1 +:+ ":" +:+ py_str (default kv.2
                            (exp_parameters exp !! kv.1)))
                   <$> default_parameters b))
  ∧ (∃ fixed,
       length fixed = 6%nat
       ∧ vslamlab_command_python b exp_it exp d sequence_name
         = fixed ++ ((λ kv, "--" +:+ kv.1 +:+ " " +:+ py_str (default kv.2
                              (exp_parameters exp !! kv.1)))
                     <$> default_parameters b)).
Proof.
  split; eexists; (split; [|unfold vslamlab_command_cpp,
                             vslamlab_command_python; cbn zeta;
                           first [apply foldl_extend_cpp
                                 | apply foldl_extend_python]]);
    reflexivity.
Qed.

(** X15.  Both builders raise [AttributeError] exactly when no default
    parameter of the baseline yields a mode entry: no key is [mode] or
    begins with [mode:] (with [mode ] for the Python builder).  What the
    experiment holds changes nothing to that. *)
Theorem command_needs_mode b exp_it exp d sequence_name :
  (build_execute_command_cpp b exp_it exp d sequence_name
   = Raises AttributeError
   ↔ Forall (λ kv, kv.1 ≠ "mode" ∧ startswith "mode:" kv.1 = false)
       (default_parameters b))
  ∧ (build_execute_command_python b exp_it exp d sequence_name
     = Raises AttributeError
     ↔ Forall (λ kv, kv.1 ≠ "mode" ∧ startswith "mode " kv.1 = false)
         (default_parameters b)).
Proof.
  assert (Hsel : ∀ (f : string → bool) (l : list (string * param)),
            Forall (λ kv, (bool_decide (kv.1 = "mode") || f kv.1) = false) l
            ↔ Forall (λ kv, kv.1 ≠ "mode" ∧ f kv.1 = false) l).
  { intros f l. apply Forall_proper; [|reflexivity]. intros kv.
    rewrite orb_false_iff, bool_decide_eq_false. reflexivity. }
  split.
  - unfold build_execute_command_cpp. cbn zeta. rewrite mode_entry_cpp.
    transitivity (List.find (λ kv, selects_mode_cpp kv.1)
                    (default_parameters b) = None).
    { destruct (List.find _ (default_parameters b)); cbn; split; congruence. }
    rewrite find_none_Forall. exact (Hsel (startswith "mode:") _).
  - unfold build_execute_command_python. cbn zeta. rewrite mode_entry_python.
    transitivity (List.find (λ kv, selects_mode_python kv.1)
                    (default_parameters b) = None).
    { destruct (List.find _ (default_parameters b)); cbn; split; congruence. }
    rewrite find_none_Forall. exact (Hsel (startswith "mode ") _).
Qed.

Lemma selects_mode_cpp_mode : selects_mode_cpp "mode" = true.
Proof. reflexivity. Qed.

Lemma selects_mode_python_mode : selects_mode_python "mode" = true.
Proof. reflexivity. Qed.

(** X16.  When [mode] is the first default key that yields a mode entry
    and the value it takes (the one of the experiment if it has the key)
    does not contain [mode:], the command of [build_execute_command_cpp]
    runs the task [execute-<that value>] in the environment of the
    baseline, followed by the entries separated by spaces; likewise for
    [build_execute_command_python] with [--mode ]. *)
Theorem command_runs_mode b exp_it exp d sequence_name pre v0 post :
  default_parameters b = pre ++ ("mode", v0) :: post →
  let m := py_str (default v0 (exp_parameters exp !! "mode")) in
  (Forall (λ kv, kv.1 ≠ "mode" ∧ startswith "mode:" kv.1 = false) pre →
   absent "mode:" m →
   build_execute_command_cpp b exp_it exp d sequence_name
   = Returns ("pixi run --frozen -e " +:+ baseline_name b +:+ " execute-"
              +:+ m +:+ " "
              +:+ String.concat " "
                    (vslamlab_command_cpp b exp_it exp d sequence_name)))
  ∧ (Forall (λ kv, kv.1 ≠ "mode" ∧ startswith "mode " kv.1 = false) pre →
     absent "--mode " m →
     build_execute_command_python b exp_it exp d sequence_name
     = Returns ("pixi run --frozen -e " +:+ baseline_name b +:+ " execute-"
                +:+ m +:+ " "
                +:+ String.concat " "
                      (vslamlab_command_python b exp_it exp d sequence_name))).
Proof.
  intros Hd m. split; intros Hpre Habs.
  - unfold build_execute_command_cpp. cbn zeta.
    rewrite mode_entry_cpp, Hd, find_first; cbn [fmap option_fmap option_map fst].
    + change (effective exp ("mode", v0)) with m.
      change ("mode" +:+ ":" +:+ m) with ("mode:" +:+ m).
      now rewrite (py_replace_leading "mode:" "" m).
    + eapply Forall_impl; [exact Hpre|]. intros kv [H1 H2].
      unfold selects_mode_cpp. rewrite H2.
      now rewrite bool_decide_eq_false_2.
    + reflexivity.
  - unfold build_execute_command_python. cbn zeta.
    rewrite mode_entry_python, Hd, find_first;
      cbn [fmap option_fmap option_map fst].
    + change (effective exp ("mode", v0)) with m.
      change ("--" +:+ "mode" +:+ " " +:+ m) with ("--mode " +:+ m).
      now rewrite (py_replace_leading "--mode " "" m).
    + eapply Forall_impl; [exact Hpre|]. intros kv [H1 H2].
      unfold selects_mode_python. rewrite H2.
      now rewrite bool_decide_eq_false_2.
    + reflexivity.
Qed.

Lemma absent_short (old s : string) :
  (String.length s < String.length old)%nat → absent old s.
Proof.
  intros H a b E. rewrite E, !length_append in H. lia.
Qed.

Lemma command_runs_mode_witness :
  build_execute_command_cpp
    (ORBSLAM2_baseline sample_baselines "orbslam2" "ORB-SLAM2") 3
    sample_experiment sample_dataset "office0"
  = Returns
      ("pixi run --frozen -e " +:+ "orbslam2" +:+ " execute-" +:+ "rgbd"
       +:+ " "
       +:+ String.concat " "
             (vslamlab_command_cpp
                (ORBSLAM2_baseline sample_baselines "orbslam2" "ORB-SLAM2") 3
                sample_experiment sample_dataset "office0")).
Proof.
  refine (proj1 (command_runs_mode
                   (ORBSLAM2_baseline sample_baselines "orbslam2" "ORB-SLAM2")
                   3 sample_experiment sample_dataset "office0"
                   [("verbose", PInt 0)] (PStr "mono") _ eq_refl) _ _).
  - repeat constructor. cbn. discriminate.
  - apply absent_short. vm_compute. lia.
Defined.

(** X17.  A parameter of the experiment whose key is not a default
    parameter of the baseline never reaches the command: adding it to the
    experiment changes the outcome of neither builder. *)
Theorem command_ignores_unknown_parameters b exp_it exp d sequence_name k v :
  k ∉ (default_parameters b).*1 →
  build_execute_command_cpp b exp_it
    (with_parameters exp (<[k := v]> (exp_parameters exp))) d sequence_name
  = build_execute_command_cpp b exp_it exp d sequence_name
  ∧ build_execute_command_python b exp_it
      (with_parameters exp (<[k := v]> (exp_parameters exp))) d sequence_name
    = build_execute_command_python b exp_it exp d sequence_name.
Proof.
  intros Hk.
  assert (Hcpp : vslamlab_command_cpp b exp_it
                   (with_parameters exp (<[k := v]> (exp_parameters exp)))
                   d sequence_name
                 = vslamlab_command_cpp b exp_it exp d sequence_name).
  { unfold vslamlab_command_cpp. cbn zeta. rewrite !foldl_extend_cpp.
    cbn [exp_folder_of with_parameters]. f_equal.
    apply list_fmap_ext. intros i kv Hkv. unfold effective.
    cbn [exp_parameters with_parameters].
    rewrite lookup_insert_ne; [reflexivity|].
    intros ->. apply Hk. apply list_elem_of_fmap. exists kv.
    split; [reflexivity|]. eapply list_elem_of_lookup_2, Hkv. }
  assert (Hpy : vslamlab_command_python b exp_it
                  (with_parameters exp (<[k := v]> (exp_parameters exp)))
                  d sequence_name
                = vslamlab_command_python b exp_it exp d sequence_name).
  { unfold vslamlab_command_python. cbn zeta. rewrite !foldl_extend_python.
    cbn [exp_folder_of with_parameters]. f_equal.
    apply list_fmap_ext. intros i kv Hkv. unfold effective.
    cbn [exp_parameters with_parameters].
    rewrite lookup_insert_ne; [reflexivity|].
    intros ->. apply Hk. apply list_elem_of_fmap. exists kv.
    split; [reflexivity|]. eapply list_elem_of_lookup_2, Hkv. }
  unfold build_execute_command_cpp, build_execute_command_python. cbn zeta.
  now rewrite Hcpp, Hpy.
Qed.

Lemma command_ignores_unknown_parameters_witness :
  build_execute_command_cpp
    (ORBSLAM2_baseline sample_baselines "orbslam2" "ORB-SLAM2") 3
    (with_parameters sample_experiment
       (<["max_rgb" := PInt 50]> (exp_parameters sample_experiment)))
    sample_dataset "office0"
  = build_execute_command_cpp
      (ORBSLAM2_baseline sample_baselines "orbslam2" "ORB-SLAM2") 3
      sample_experiment sample_dataset "office0".
Proof.
  refine (proj1 (command_ignores_unknown_parameters _ 3 sample_experiment
                   sample_dataset "office0" "max_rgb" (PInt 50) _)).
  cbn. intros H.
  repeat (apply elem_of_cons in H as [H|H]; [discriminate H|]).
  now apply elem_of_nil in H.
Defined.

(** X18.  The command of ORB-SLAM2 is built for every experiment, dataset
    and sequence, never raising; unless the experiment sets [mode], it
    runs the task [execute-mono]. *)
Theorem orbslam2_command VSLAMLAB_BASELINES name folder exp_it exp d
    sequence_name :
  ∃ c,
    ORBSLAM2_build_execute_command
      (ORBSLAM2_baseline VSLAMLAB_BASELINES name folder) exp_it exp d
      sequence_name = Returns c
    ∧ (exp_parameters exp !! "mode" = None →
       String.prefix ("pixi run --frozen -e " +:+ name +:+ " execute-mono ") c
       = true).
Proof.
  unfold ORBSLAM2_build_execute_command, build_execute_command_cpp. cbn zeta.
  rewrite mode_entry_cpp.
  cbn [default_parameters ORBSLAM2_baseline init_baseline List.find fst
       fmap option_fmap option_map].
  replace (selects_mode_cpp "verbose") with false by reflexivity.
  rewrite selects_mode_cpp_mode. cbn [fmap option_fmap option_map fst].
  eexists. split; [reflexivity|].
  intros Hm. unfold effective. cbn [fst snd]. rewrite Hm. cbn [default py_str].
  replace (py_replace "mode:" "" ("mode" +:+ ":" +:+ "mono")) with "mono"
    by (vm_compute; reflexivity).
  cbn [baseline_name].
  rewrite <- !append_assoc.
  rewrite (append_assoc _ " execute-" "mono"), (append_assoc _ _ " ").
  rewrite (append_assoc "pixi run --frozen -e " name).
  apply prefix_append.
Qed.

Lemma orbslam2_command_witness :
  ∃ c,
    ORBSLAM2_build_execute_command
      (ORBSLAM2_baseline sample_baselines "orbslam2" "ORB-SLAM2") 3
      plain_experiment sample_dataset "office0" = Returns c
    ∧ String.prefix "pixi run --frozen -e orbslam2 execute-mono " c = true.
Proof.
  destruct (orbslam2_command sample_baselines "orbslam2" "ORB-SLAM2" 3
              plain_experiment sample_dataset "office0") as (c & Hc & Hp).
  exists c. split; [exact Hc | exact (Hp eq_refl)].
Defined.

Lemma command_needs_mode_witness :
  build_execute_command_cpp
    (init_baseline sample_baselines "demo" "DEMO" [("verbose", PInt 0)]) 3
    plain_experiment sample_dataset "office0" = Raises AttributeError.
Proof.
  apply (proj1 (command_needs_mode _ 3 plain_experiment sample_dataset
                  "office0")).
  repeat constructor. cbn. discriminate.
Defined.

(** * The names of the files of a run *)

Lemma pretty_N_char_nonzero (x : N) :
  (0 < x < 10)%N → pretty_N_char x ∈ nonzero_digits.
Proof.
  intros H.
  assert (x = 1 ∨ x = 2 ∨ x = 3 ∨ x = 4 ∨ x = 5 ∨ x = 6 ∨ x = 7 ∨ x = 8
          ∨ x = 9)%N as Hx by lia.
  unfold nonzero_digits.
  apply list_elem_of_In.
  repeat (destruct Hx as [->|Hx]; [cbn; tauto|]). subst. cbn. tauto.
Qed.

Lemma pretty_N_go_head (x : N) (s : string) :
  (0 < x)%N → ∃ c r, pretty_N_go x s = String c r ∧ c ∈ nonzero_digits.
Proof.
  revert s. induction (N.lt_wf_0 x) as [x _ IH]; intros s Hx.
  rewrite pretty_N_go_step by exact Hx.
  destruct (decide (x < 10)%N) as [Hlt|Hge].
  - rewrite N.div_small, pretty_N_go_0, N.mod_small by exact Hlt.
    eexists _, _. split; [reflexivity|]. apply pretty_N_char_nonzero. lia.
  - apply IH; [apply N.div_lt; lia | apply N.div_str_pos; lia].
Qed.

Lemma pretty_pos_head (p : positive) :
  ∃ c r, pretty (Z.pos p) = String c r ∧ c ∈ nonzero_digits.
Proof.
  unfold pretty, pretty_Z, pretty, pretty_positive, pretty, pretty_N.
  rewrite decide_False by discriminate. now apply pretty_N_go_head.
Qed.

Lemma zeros_snoc (n : nat) : zeros n +:+ "0" = zeros (S n).
Proof.
  induction n as [|n IH]; [reflexivity|].
  cbn [zeros]. rewrite append_cons. now rewrite IH.
Qed.

Lemma strip_zeros_all (n : nat) : strip_zeros (zeros n) = "".
Proof.
  induction n as [|n IH]; [reflexivity|].
  cbn [zeros strip_zeros]. now rewrite bool_decide_eq_true_2.
Qed.

Lemma strip_zeros_zeros (n : nat) (c : ascii) (r : string) :
  c ≠ "0"%char → strip_zeros (zeros n +:+ String c r) = String c r.
Proof.
  intros Hc. induction n as [|n IH].
  - cbn [zeros]. rewrite append_nil_l. cbn [strip_zeros].
    now rewrite bool_decide_eq_false_2.
  - cbn [zeros]. rewrite append_cons. cbn [strip_zeros].
    now rewrite bool_decide_eq_true_2.
Qed.

Lemma nonzero_digit_facts (c : ascii) :
  c ∈ nonzero_digits →
  c ≠ "0"%char ∧ c ≠ "-"%char ∧ c ≠ "+"%char ∧ c ≠ "s"%char.
Proof.
  intros H%list_elem_of_In. cbn in H.
  repeat (destruct H as [<-|H]; [repeat split; discriminate|]). destruct H.
Qed.

(** [zfill] on a string that begins with a digit, with a minus. *)
Lemma zfill_digit (w : nat) (c : ascii) (r : string) :
  c ≠ "-"%char → c ≠ "+"%char →
  zfill w (String c r)
  = zeros (w - String.length (String c r)) +:+ String c r.
Proof.
  intros H1 H2. unfold zfill.
  destruct (w <=? String.length (String c r))%nat eqn:E.
  - apply Nat.leb_le in E. replace (w - _)%nat with 0%nat by lia. reflexivity.
  - rewrite bool_decide_eq_false_2 by tauto. reflexivity.
Qed.

Lemma zfill_minus (w : nat) (r : string) :
  zfill w (String "-" r)
  = String "-" (zeros (w - String.length (String "-" r)) +:+ r).
Proof.
  unfold zfill.
  destruct (w <=? String.length (String "-" r))%nat eqn:E.
  - apply Nat.leb_le in E. replace (w - _)%nat with 0%nat by lia. reflexivity.
  - rewrite bool_decide_eq_true_2 by tauto. reflexivity.
Qed.

(** The padded index of a run begins with a digit or a minus, and the
    index is read back from it. *)
Lemma zfill_pretty (w : nat) (z : Z) :
  (∃ c r, zfill w (pretty z) = String c r ∧ c ≠ "s"%char)
  ∧ unzfill (zfill w (pretty z)) = if decide (z = 0) then "" else pretty z.
Proof.
  destruct z as [|p|p].
  - change (pretty 0) with "0". rewrite zfill_digit by discriminate.
    rewrite zeros_snoc. split.
    + eexists _, _. split; [reflexivity | discriminate].
    + cbn [zeros unzfill]. rewrite bool_decide_eq_false_2 by discriminate.
      apply (strip_zeros_all (S _)).
  - destruct (pretty_pos_head p) as (c & r & -> & Hc).
    destruct (nonzero_digit_facts c Hc) as (H0 & Hm & Hp & Hs).
    rewrite zfill_digit by assumption. rewrite decide_False by discriminate.
    destruct (w - String.length (String c r))%nat as [|k] eqn:E.
    + cbn [zeros]. rewrite append_nil_l. split; [eauto|].
      cbn [unzfill strip_zeros].
      now rewrite !bool_decide_eq_false_2.
    + split; [eexists _, _; split; [reflexivity | discriminate]|].
      cbn [zeros]. rewrite append_cons. cbn [unzfill].
      rewrite bool_decide_eq_false_2 by discriminate.
      rewrite <- append_cons. now apply (strip_zeros_zeros (S k)).
  - change (pretty (Z.neg p)) with ("-" +:+ pretty (Z.pos p)).
    destruct (pretty_pos_head p) as (c & r & -> & Hc).
    destruct (nonzero_digit_facts c Hc) as (H0 & Hm & Hp & Hs).
    rewrite append_cons, append_nil_l, zfill_minus.
    rewrite decide_False by discriminate.
    split; [eexists _, _; split; [reflexivity | discriminate]|].
    cbn [unzfill]. rewrite bool_decide_eq_true_2 by reflexivity.
    now rewrite strip_zeros_zeros.
Qed.

Lemma zfill_pretty_inj (w : nat) (i j : Z) :
  zfill w (pretty i) = zfill w (pretty j) → i = j.
Proof.
  intros H. apply (f_equal unzfill) in H.
  rewrite !(proj2 (zfill_pretty w _)) in H.
  assert (Hne : ∀ z : Z, z ≠ 0 → pretty z ≠ "").
  { intros [|p|p] Hz; [congruence| |].
    - destruct (pretty_pos_head p) as (c & r & -> & _). discriminate.
    - change (pretty (Z.neg p)) with ("-" +:+ pretty (Z.pos p)). discriminate. }
  destruct (decide (i = 0)) as [->|Hi], (decide (j = 0)) as [->|Hj];
    [reflexivity | | |].
  - now destruct (Hne j Hj).
  - now destruct (Hne i Hi).
  - now apply (inj pretty).
Qed.

Lemma append_inj_r (a b s : string) : a +:+ s = b +:+ s → a = b.
Proof.
  revert b. induction a as [|x a IH]; intros [|y b] H.
  - reflexivity.
  - apply (f_equal String.length) in H.
    rewrite !length_append in H. cbn in H. lia.
  - apply (f_equal String.length) in H.
    rewrite !length_append in H. cbn in H. lia.
  - rewrite !append_cons in H. injection H as -> H. f_equal. now apply IH.
Qed.

(** X19.  The files of a run carry its index: two runs have the same
    trajectory file, or the same log file, only if they are in the same
    folder and have the same index, whatever the sign and the size of the
    index; and the trajectory file of a run is never a log file. *)
Theorem run_files_injective (f g : Path) (i j : Z) :
  (artifact_path f i = artifact_path g j → f = g ∧ i = j)
  ∧ (log_file_path f i = log_file_path g j → f = g ∧ i = j)
  ∧ artifact_path f i ≠ log_file_path g j.
Proof.
  unfold artifact_path, log_file_path, path_div.
  split; [|split].
  - intros H. apply app_inj_tail in H as [-> H]. split; [reflexivity|].
    apply append_inj_r in H. now apply zfill_pretty_inj in H.
  - intros H. apply app_inj_tail in H as [-> H]. split; [reflexivity|].
    apply (inj (String.app "system_output_")) in H.
    apply append_inj_r in H. now apply zfill_pretty_inj in H.
  - intros H. apply app_inj_tail in H as [_ H].
    destruct (proj1 (zfill_pretty 5 i)) as (c & r & E & Hc).
    rewrite E in H. rewrite append_cons in H.
    change ("system_output_" +:+ ?x) with (String "s" ("ystem_output_" +:+ x))
      in H.
    injection H as Hcs _. contradiction.
Qed.

Lemma run_files_injective_witness :
  artifact_path ["exp"] 7 ≠ log_file_path ["exp"] 7.
Proof.
  exact (proj2 (proj2 (run_files_injective ["exp"] ["exp"] 7 7))).
Defined.
